(** * Record: the staged field filler ([records/fillers/filler.py])

  A shallow embedding of [AnnotatedFiller] and of the three stages of a
  field filling (type checking, coercion, validation), followed by the
  properties of [fill], [bind] and [apply].

  Python objects are an abstract type [Value].  A callable is a function
  from a value to a [Result]: either a returned value or a raised
  exception.  A generator is run to completion and described by the list
  of [Event]s it went through (the intents it yielded and the calls it
  made, in order) together with its outcome; a driver that abandons the
  generator after [n] resumptions sees the first [n] intents.  An
  exception that leaves the body of a generator reaches the caller as it
  is, except a [StopIteration], which reaches it as a [RuntimeError]. *)

From Stdlib Require Import List String ZArith Bool Arith Lia.
Import ListNotations.
Local Open Scope string_scope.
Local Open Scope list_scope.

(** ** Enumerations *)

Module TypeCheckStyle.
Inductive t : Type := default | hollow | check | check_strict.

(** [auto()] numbers the members from 1. *)
Definition value (s : t) : Z :=
  match s with
  | default => 1
  | hollow => 2
  | check => 3
  | check_strict => 4
  end%Z.

Definition eqb (a b : t) : bool :=
  match a, b with
  | default, default | hollow, hollow
  | check, check | check_strict, check_strict => true
  | _, _ => false
  end.

End TypeCheckStyle.

Module FillingIntent.
Inductive t : Type :=
| attempt_no_coerce
| attempt_coerce
| attempt_hollow
| attempt_validation.

Definition value (i : t) : Z :=
  match i with
  | attempt_no_coerce => 0
  | attempt_coerce => 1
  | attempt_hollow => 2
  | attempt_validation => -1
  end%Z.

Definition eqb (a b : t) : bool := Z.eqb (value a) (value b).

End FillingIntent.

Import TypeCheckStyle(default, hollow, check, check_strict).
Import FillingIntent(attempt_no_coerce, attempt_coerce, attempt_hollow,
                   attempt_validation).

(** ** Exceptions, results and generators *)

Section Python.

(** Python objects. *)
Context {Value : Type}.

(** The classes of the exceptions the module raises, [StopIteration]
    and [RuntimeError], which the generator protocol knows, and any
    other class a user callable may raise; for the latter the flags
    record whether the class derives from [TypeError], which is what
    [except TypeError] looks at, and from [StopIteration], which is what
    a generator looks at when an exception leaves its body. *)
Inductive ExcClass : Type :=
| NotImplementedError
| TypeError
| ValueError
| StopIteration
| RuntimeError
| OtherException (name : string)
    (derives_TypeError derives_StopIteration : bool).

Inductive ExcArgs : Type :=
| NoArgs
| Message (s : string)
| Object (v : Value).

Record PyExc : Type := mkExc { exc_class : ExcClass; exc_args : ExcArgs }.

(** [isinstance(e, TypeError)], the test of [except TypeError]. *)
Definition isinstance_TypeError (e : PyExc) : bool :=
  match exc_class e with
  | TypeError => true
  | OtherException _ d _ => d
  | NotImplementedError | ValueError | StopIteration | RuntimeError => false
  end.

(** [isinstance(e, StopIteration)]. *)
Definition isinstance_StopIteration (e : PyExc) : bool :=
  match exc_class e with
  | StopIteration => true
  | OtherException _ _ d => d
  | NotImplementedError | TypeError | ValueError | RuntimeError => false
  end.

(** What the caller of a generator gets when [e] leaves the body of the
    generator: a [StopIteration] raised in the body is replaced by
    [RuntimeError('generator raised StopIteration')], any other
    exception goes through. *)
Definition escaping (e : PyExc) : PyExc :=
  if isinstance_StopIteration e
  then mkExc RuntimeError (Message "generator raised StopIteration")
  else e.

Inductive Result (A : Type) : Type :=
| Return (a : A)
| Raise (e : PyExc).
Arguments Return {A} a.
Arguments Raise {A} e.

Definition Callable : Type := Value -> Result Value.

(** What a run of [fill] does that an observer can tell: it yields an
    intent, or it calls one of the filler's functions on a value. *)
Inductive Callee : Type :=
| TypeCheckStrict
| TypeCheck
| Coercer (i : nat)
| Validator (j : nat).

Inductive Event : Type :=
| Yield (i : FillingIntent.t)
| Call (f : Callee) (arg : Value).

(** A generator run to its end: the events in order, then the value
    returned or the exception raised. *)
Definition Gen (A : Type) : Type := (list Event * Result A)%type.

Definition ret {A} (a : A) : Gen A := ([], Return a).
Definition raise {A} (e : PyExc) : Gen A := ([], Raise e).
Definition yield (i : FillingIntent.t) : Gen unit := ([Yield i], Return tt).
Definition call {A} (f : Callee) (m : Value -> Result A) (arg : Value) : Gen A :=
  ([Call f arg], m arg).

Definition gen_bind {A B} (g : Gen A) (k : A -> Gen B) : Gen B :=
  match g with
  | (t, Return a) => let (t', r) := k a in (t ++ t', r)
  | (t, Raise e) => (t, Raise e)
  end.

Definition trace {A} (g : Gen A) : list Event := fst g.
Definition outcome {A} (g : Gen A) : Result A := snd g.

(** The outcome of a generator seen from its caller, given the outcome
    of its body. *)
Definition escaped {A} (r : Result A) : Result A :=
  match r with
  | Return a => Return a
  | Raise e => Raise (escaping e)
  end.

(** A generator function with the given body: the events are those of
    the body, and an exception that leaves the body reaches the caller
    as [escaping] says. *)
Definition generator {A} (body : Gen A) : Gen A :=
  (trace body, escaped (outcome body)).

Fixpoint intents (t : list Event) : list FillingIntent.t :=
  match t with
  | [] => []
  | Yield i :: t' => i :: intents t'
  | Call _ _ :: t' => intents t'
  end.

(** The intents a driver has received after resuming the generator [n]
    times and then dropping it. *)
Definition observed {A} (n : nat) (g : Gen A) : list FillingIntent.t :=
  firstn n (intents (trace g)).

End Python.

Arguments ExcArgs : clear implicits.
Arguments PyExc : clear implicits.
Arguments Result : clear implicits.
Arguments Callable : clear implicits.
Arguments Event : clear implicits.
Arguments Gen : clear implicits.
Arguments Return {Value A} a.
Arguments Raise {Value A} e.

Declare Scope gen_scope.
Delimit Scope gen_scope with gen.
Notation "x <- c1 ;; c2" := (gen_bind c1 (fun x => c2))
  (at level 61, c1 at next level, right associativity) : gen_scope.
Notation "c1 ;; c2" := (gen_bind c1 (fun _ => c2))
  (at level 61, right associativity) : gen_scope.

Local Open Scope gen_scope.

(** ** AnnotatedFiller *)

(** What the module asks of the Python runtime about an object.
    [CoercionToken] and [ValidationToken] are imported from
    [records.fillers.coercers] and [records.fillers.validators]; all the
    code does with them is [isinstance] and [callable], so they are taken
    as two predicates on objects.  [as_TypeCheckStyle] is
    [isinstance(token, TypeCheckStyle)], giving the member when it holds;
    [callable] is [callable(token)], giving for an object that can be
    called what a call of it on one argument does (a function of another
    arity raises a [TypeError] there); [format_type] is the text
    [{type(arg)}] puts in an f-string.  [accepts_one_argument] says
    whether a call of the object with one positional argument fits its
    signature, that is whether it can be used as a unary function: the
    module never asks, and it is here to say so. *)
Class Runtime (Value : Type) : Type := {
  format_type : Value -> string;
  as_TypeCheckStyle : Value -> option TypeCheckStyle.t;
  isinstance_CoercionToken : Value -> bool;
  isinstance_ValidationToken : Value -> bool;
  callable : Value -> option (Callable Value);
  accepts_one_argument : Value -> bool
}.

Section AnnotatedFiller.

Context {Value : Type} {rt : Runtime Value}.

(** The object: the five attributes set by [__init__], and the two
    abstract methods a concrete subclass supplies. *)
Record AnnotatedFiller : Type := mkFiller {
  type_checking_style : TypeCheckStyle.t;
  origin : Value;
  args : list Value;
  coercers : list (Callable Value);
  validators : list (Callable Value);
  type_check_strict : Value -> Result Value bool;
  type_check : Value -> Result Value bool
}.

(** [__init__(self, origin, args)], for a subclass with the given checks. *)
Definition init (strict nonstrict : Value -> Result Value bool)
    (origin : Value) (args : list Value) : AnnotatedFiller :=
  {| type_checking_style := default;
     origin := origin;
     args := args;
     coercers := [];
     validators := [];
     type_check_strict := strict;
     type_check := nonstrict |}.

(** [try: body / except TypeError: handler]; the handler gets the caught
    exception, which a bare [raise] re-raises. *)
Definition try_except_TypeError {A} (body : Gen Value A)
    (handler : PyExc Value -> Gen Value A) : Gen Value A :=
  match body with
  | (t, Return a) => (t, Return a)
  | (t, Raise e) =>
      if isinstance_TypeError e
      then (t, Return tt) ;; handler e
      else (t, Raise e)
  end.

(** [for i, coercer in enumerate(self.coercers)], from index [i] on, over
    the coercers [cs] still to come; [n] is [len(self.coercers)].  The
    body gives [Some v] on [break] (with [arg] assigned [v]) and [None]
    when the loop goes on. *)
Fixpoint coerce_loop (n i : nat) (cs : list (Callable Value)) (arg : Value)
    : Gen Value Value :=
  match cs with
  | [] => ret arg
  | coercer :: rest =>
      r <- try_except_TypeError
             (v <- call (Coercer i) coercer arg ;; ret (Some v))
             (fun e => if (Z.of_nat i =? Z.of_nat n - 1)%Z
                       then raise e
                       else ret None) ;;
      match r with
      | Some v => ret v
      | None => coerce_loop n (S i) rest arg
      end
  end.

(** [for validator in self.validators: arg = validator(arg)]; [j] only
    numbers the calls in the trace. *)
Fixpoint validate_loop (j : nat) (vs : list (Callable Value)) (arg : Value)
    : Gen Value Value :=
  match vs with
  | [] => ret arg
  | validator :: rest =>
      arg' <- call (Validator j) validator arg ;;
      validate_loop (S j) rest arg'
  end.

Definition is_empty {A} (l : list A) : bool :=
  match l with [] => true | _ :: _ => false end.

(** Lines 93-102 of [fill]: the coercion, entered once the type check
    has failed and [attempt_coerce] has been yielded. *)
Definition coercion (self : AnnotatedFiller) (arg : Value)
    : Gen Value Value :=
  if is_empty (coercers self) then
    raise (mkExc TypeError
             (Message (String.append
                         "failed type checking for value of type "
                         (format_type arg))))
  else
    coerce_loop (List.length (coercers self)) 0 (coercers self) arg.

(** Lines 81-102 of [fill]: the type checking stage with its coercion,
    giving the value that goes on to validation. *)
Definition type_checking (self : AnnotatedFiller) (arg : Value)
    : Gen Value Value :=
  if TypeCheckStyle.eqb (type_checking_style self) hollow then
    yield attempt_hollow ;;
    ret arg
  else
    yield attempt_no_coerce ;;
    is_type <-
      (if TypeCheckStyle.eqb (type_checking_style self) check_strict
       then call TypeCheckStrict (type_check_strict self) arg
       else call TypeCheck (type_check self) arg) ;;
    if negb is_type then
      yield attempt_coerce ;;
      coercion self arg
    else ret arg.

(** Lines 104-109 of [fill]. *)
Definition validation (self : AnnotatedFiller) (arg : Value)
    : Gen Value Value :=
  yield attempt_validation ;;
  arg' <- validate_loop 0 (validators self) arg ;;
  ret arg'.

(** Lines 78-109: the body of [fill]. *)
Definition fill_body (self : AnnotatedFiller) (arg : Value)
    : Gen Value Value :=
  if TypeCheckStyle.eqb (type_checking_style self) default then
    raise (mkExc NotImplementedError NoArgs)
  else
    arg' <- type_checking self arg ;;
    validation self arg'.

(** [fill] has [yield] in its body, so that it is a generator
    function. *)
Definition fill (self : AnnotatedFiller) (arg : Value) : Gen Value Value :=
  generator (fill_body self arg).

(** *** Binding

    [bind] and [apply] change the object they are called on; they take
    the object and give back the object as they leave it, together with
    [None] returned or the exception raised. *)

Definition get_coercer (self : AnnotatedFiller) (token : Value)
    : Result Value (Callable Value) :=
  match callable token with
  | Some f => Return f
  | None => Raise (mkExc TypeError (Object token))
  end.

Definition get_validator (self : AnnotatedFiller) (token : Value)
    : Result Value (Callable Value) :=
  match callable token with
  | Some f => Return f
  | None => Raise (mkExc TypeError (Object token))
  end.

Definition set_type_checking_style (self : AnnotatedFiller)
    (s : TypeCheckStyle.t) : AnnotatedFiller :=
  {| type_checking_style := s;
     origin := origin self;
     args := args self;
     coercers := coercers self;
     validators := validators self;
     type_check_strict := type_check_strict self;
     type_check := type_check self |}.

Definition coercers_append (self : AnnotatedFiller) (c : Callable Value)
    : AnnotatedFiller :=
  {| type_checking_style := type_checking_style self;
     origin := origin self;
     args := args self;
     coercers := coercers self ++ [c];
     validators := validators self;
     type_check_strict := type_check_strict self;
     type_check := type_check self |}.

Definition validators_append (self : AnnotatedFiller) (v : Callable Value)
    : AnnotatedFiller :=
  {| type_checking_style := type_checking_style self;
     origin := origin self;
     args := args self;
     coercers := coercers self;
     validators := validators self ++ [v];
     type_check_strict := type_check_strict self;
     type_check := type_check self |}.

Definition apply (self : AnnotatedFiller) (token : Value)
    : AnnotatedFiller * Result Value unit :=
  match as_TypeCheckStyle token with
  | Some s => (set_type_checking_style self s, Return tt)
  | None =>
      if isinstance_CoercionToken token then
        match get_coercer self token with
        | Return c => (coercers_append self c, Return tt)
        | Raise e => (self, Raise e)
        end
      else if isinstance_ValidationToken token then
        match get_validator self token with
        | Return v => (validators_append self v, Return tt)
        | Raise e => (self, Raise e)
        end
      else (self, Return tt)
  end.

(** [for arg in self.args: self.apply(arg)], over the tokens still to
    come. *)
Fixpoint apply_each (self : AnnotatedFiller) (tokens : list Value)
    : AnnotatedFiller * Result Value unit :=
  match tokens with
  | [] => (self, Return tt)
  | arg :: rest =>
      match apply self arg with
      | (self', Return _) => apply_each self' rest
      | (self', Raise e) => (self', Raise e)
      end
  end.

Definition bind (self : AnnotatedFiller) (owner_cls : Value)
    : AnnotatedFiller * Result Value unit :=
  match apply_each self (args self) with
  | (self', Raise e) => (self', Raise e)
  | (self', Return _) =>
      if TypeCheckStyle.eqb (type_checking_style self') default then
        (self', Raise (mkExc NotImplementedError NoArgs))
      else if TypeCheckStyle.eqb (type_checking_style self') hollow
              && negb (is_empty (coercers self')) then
        (self', Raise (mkExc ValueError
                         (Message "cannot have hollow type checking with coercers")))
      else (self', Return tt)
  end.

End AnnotatedFiller.

Arguments AnnotatedFiller Value : clear implicits.

(** The protocol [Filler]: the two methods an implementation gives, and
    [AnnotatedFiller] as one. *)
Class Filler (Value F : Type) : Type := {
  Filler_fill : F -> Value -> Gen Value Value;
  Filler_bind : F -> Value -> F * Result Value unit
}.

#[export] Instance AnnotatedFiller_Filler {Value : Type} {rt : Runtime Value}
  : Filler Value (AnnotatedFiller Value) :=
  {| Filler_fill := fill; Filler_bind := bind |}.

(** ** What the statements speak of *)

Section Observations.

Context {Value : Type} {rt : Runtime Value}.

(** The coercer [c], called on [x], raises an exception that
    [except TypeError] catches. *)
Definition raises_TypeError_on (x : Value) (c : Callable Value) : Prop :=
  exists e, c x = Raise e /\ isinstance_TypeError e = true.

(** Calls of the coercers numbered [i], ..., [i + m - 1], all on [x]. *)
Definition coercer_calls (i m : nat) (x : Value) : list (Event Value) :=
  map (fun k => Call (Coercer k) x) (seq i m).

(** The validators the trace shows as called, in order. *)
Fixpoint validators_called (t : list (Event Value)) : list nat :=
  match t with
  | [] => []
  | Call (Validator j) _ :: t' => j :: validators_called t'
  | _ :: t' => validators_called t'
  end.

(** The coercers the trace shows as called, in order. *)
Fixpoint coercers_called (t : list (Event Value)) : list nat :=
  match t with
  | [] => []
  | Call (Coercer i) _ :: t' => i :: coercers_called t'
  | _ :: t' => coercers_called t'
  end.

(** [vn(...v1(v)...)]: the validators composed from left to right, as
    plain functions that may raise. *)
Definition compose (vs : list (Callable Value)) (v : Value)
    : Result Value Value :=
  fold_left (fun acc f => match acc with
                          | Return a => f a
                          | Raise e => Raise e
                          end) vs (Return v).

(** The check [fill] calls for a style other than [hollow] (lines 85-88). *)
Definition checker (self : AnnotatedFiller Value) : Callee :=
  if TypeCheckStyle.eqb (type_checking_style self) check_strict
  then TypeCheckStrict else TypeCheck.

(** The selected check says no: the style is [check] and [type_check]
    returns [False], or it is [check_strict] and [type_check_strict]
    does. *)
Definition check_rejects (self : AnnotatedFiller Value) (x : Value) : Prop :=
  (type_checking_style self = check /\ type_check self x = Return false) \/
  (type_checking_style self = check_strict /\
   type_check_strict self x = Return false).

Definition check_accepts (self : AnnotatedFiller Value) (x : Value) : Prop :=
  (type_checking_style self = check /\ type_check self x = Return true) \/
  (type_checking_style self = check_strict /\
   type_check_strict self x = Return true).

(** A callee that is a type check or a coercer. *)
Definition before_validation (f : Callee) : bool :=
  match f with
  | TypeCheckStrict | TypeCheck | Coercer _ => true
  | Validator _ => false
  end.

(** The trace holds no call of a type check or of a coercer. *)
Definition no_check_no_coercion (t : list (Event Value)) : Prop :=
  forall f v, In (Call f v) t -> before_validation f = false.

Definition prefix {A} (l1 l2 : list A) : Prop := exists k, l2 = l1 ++ k.

(** The three orders the intents may come in. *)
Definition intent_orders : list (list FillingIntent.t) :=
  [ [attempt_no_coerce; attempt_coerce; attempt_validation];
    [attempt_no_coerce; attempt_validation];
    [attempt_hollow; attempt_validation] ].

(** The condition the end of [bind] rejects (lines 114-117). *)
Definition misconfigured (self : AnnotatedFiller Value) : Prop :=
  type_checking_style self = default \/
  (type_checking_style self = hollow /\ coercers self <> []).

End Observations.

(** ** What a list of tokens asks for

    The tokens of [args] read on their own, to say what [bind] makes of
    them. *)

Section Tokens.

Context {Value : Type} {rt : Runtime Value}.

(** A coercion or validation token that [get_coercer] or [get_validator]
    refuses: not a style, of one of the two classes, and not callable. *)
Definition unresolvable (token : Value) : bool :=
  match as_TypeCheckStyle token with
  | Some _ => false
  | None =>
      (isinstance_CoercionToken token || isinstance_ValidationToken token)
      && match callable token with Some _ => false | None => true end
  end.

(** The tokens before the first unresolvable one, and that one. *)
Fixpoint applicable (tokens : list Value) : list Value * option Value :=
  match tokens with
  | [] => ([], None)
  | token :: rest =>
      if unresolvable token then ([], Some token)
      else let (pre, bad) := applicable rest in (token :: pre, bad)
  end.

(** The style after the tokens: that of the last style token, or the
    style [s] there was when there is none. *)
Definition style_after (tokens : list Value) (s : TypeCheckStyle.t)
    : TypeCheckStyle.t :=
  fold_left (fun s token => match as_TypeCheckStyle token with
                            | Some s' => s'
                            | None => s
                            end) tokens s.

(** The functions of the callable coercion tokens, in the order of the
    tokens. *)
Definition coercers_of (tokens : list Value) : list (Callable Value) :=
  flat_map (fun token =>
              match as_TypeCheckStyle token with
              | Some _ => []
              | None =>
                  if isinstance_CoercionToken token
                  then match callable token with
                       | Some f => [f]
                       | None => []
                       end
                  else []
              end) tokens.

(** The functions of the callable validation tokens (those that are not
    coercion tokens as well), in the order of the tokens. *)
Definition validators_of (tokens : list Value) : list (Callable Value) :=
  flat_map (fun token =>
              match as_TypeCheckStyle token with
              | Some _ => []
              | None =>
                  if isinstance_CoercionToken token then []
                  else if isinstance_ValidationToken token
                  then match callable token with
                       | Some f => [f]
                       | None => []
                       end
                  else []
              end) tokens.

(** The filler with what the tokens ask for added to it. *)
Definition configure (self : AnnotatedFiller Value) (tokens : list Value)
    : AnnotatedFiller Value :=
  {| type_checking_style := style_after tokens (type_checking_style self);
     origin := origin self;
     args := args self;
     coercers := coercers self ++ coercers_of tokens;
     validators := validators self ++ validators_of tokens;
     type_check_strict := type_check_strict self;
     type_check := type_check self |}.

(** What the loop of [bind] ends with, given the first unresolvable
    token if there is one. *)
Definition loop_outcome (bad : option Value) : Result Value unit :=
  match bad with
  | None => Return tt
  | Some token => Raise (mkExc TypeError (Object token))
  end.

(** The last two tests of [bind] (lines 114-117), on the filler the loop
    left. *)
Definition final_checks (self : AnnotatedFiller Value) : Result Value unit :=
  if TypeCheckStyle.eqb (type_checking_style self) default then
    Raise (mkExc NotImplementedError NoArgs)
  else if TypeCheckStyle.eqb (type_checking_style self) hollow
          && negb (is_empty (coercers self)) then
    Raise (mkExc ValueError
             (Message "cannot have hollow type checking with coercers"))
  else Return tt.

(** The tokens a new filler can be bound with: all resolvable, a last
    style that is not [default], and no coercer under [hollow]. *)
Definition well_configured (tokens : list Value) : bool :=
  forallb (fun token => negb (unresolvable token)) tokens
  && negb (TypeCheckStyle.eqb (style_after tokens default) default)
  && negb (TypeCheckStyle.eqb (style_after tokens default) hollow
           && negb (is_empty (coercers_of tokens))).

(** What a result of a coercer makes of the scan: [true] when it is an
    exception that [except TypeError] catches. *)
Definition passed_over (r : Result Value Value) : bool :=
  match r with
  | Return _ => false
  | Raise e => isinstance_TypeError e
  end.

(** The coercers at the head of the list that are passed over on [x]. *)
Fixpoint leading_passed_over (cs : list (Callable Value)) (x : Value) : nat :=
  match cs with
  | [] => 0
  | c :: rest =>
      if passed_over (c x) then S (leading_passed_over rest x) else 0
  end.

(** The result of the first coercer that is not passed over, and that of
    the last coercer when all are. *)
Definition scan_outcome (cs : list (Callable Value)) (x : Value)
    : Result Value Value :=
  match find (fun c => negb (passed_over (c x))) cs with
  | Some c => c x
  | None => last (map (fun c => c x) cs) (Return x)
  end.

(** The calls of the two type checks the trace shows. *)
Fixpoint checks_called (t : list (Event Value)) : list Callee :=
  match t with
  | [] => []
  | Call TypeCheckStrict _ :: t' => TypeCheckStrict :: checks_called t'
  | Call TypeCheck _ :: t' => TypeCheck :: checks_called t'
  | _ :: t' => checks_called t'
  end.

(** The calls a stage allows: a type check once [attempt_no_coerce] is
    the last intent yielded, a coercer once it is [attempt_coerce], a
    validator once it is [attempt_validation]; nothing before the first
    intent nor after [attempt_hollow]. *)
Definition allowed_after (last : option FillingIntent.t) (f : Callee) : bool :=
  match last, f with
  | Some attempt_no_coerce, (TypeCheckStrict | TypeCheck) => true
  | Some attempt_coerce, Coercer _ => true
  | Some attempt_validation, Validator _ => true
  | _, _ => false
  end.

(** Every call of the trace is allowed by the last intent yielded before
    it, [last] being the one yielded before the trace starts. *)
Fixpoint announced (last : option FillingIntent.t) (t : list (Event Value))
    : bool :=
  match t with
  | [] => true
  | Yield i :: t' => announced (Some i) t'
  | Call f _ :: t' => allowed_after last f && announced last t'
  end.

End Tokens.

(** ** A small universe of objects to run the filler on *)

Module Demo.

Inductive PyObj : Type :=
| PyNone
| PyInt (z : Z)
| PyBool (b : bool)
| PyStr (s : string)
| PyStyle (s : TypeCheckStyle.t)
| PyCoercionToken (name : string)
| PyValidationToken (name : string)
| PyOpaque (name : string).

(** A coercer that refuses everything with a [TypeError]. *)
Definition refuse (msg : string) : Callable PyObj :=
  fun _ => Raise (mkExc TypeError (Message msg)).

(** A coercer that fails with something else than a [TypeError]. *)
Definition crash (msg : string) : Callable PyObj :=
  fun _ => Raise (mkExc ValueError (Message msg)).

(** [len] on the strings of this universe. *)
Definition str_len : Callable PyObj :=
  fun v => match v with
           | PyStr s => Return (PyInt (Z.of_nat (String.length s)))
           | _ => Raise (mkExc TypeError (Message "object has no len()"))
           end.

(** [lambda v: v + 1] on the numbers of this universe. *)
Definition succ : Callable PyObj :=
  fun v => match v with
           | PyInt z => Return (PyInt (z + 1))
           | PyBool b => Return (PyInt ((if b then 1 else 0) + 1))
           | _ => Raise (mkExc TypeError (Message "unsupported operand"))
           end.

(** A validator that rejects the negative numbers. *)
Definition non_negative : Callable PyObj :=
  fun v => match v with
           | PyInt z => if (z <? 0)%Z
                        then Raise (mkExc ValueError (Message "negative"))
                        else Return v
           | _ => Return v
           end.

(** A callable that raises [StopIteration], as [next] does on an
    iterator that has no more items. *)
Definition exhausted : Callable PyObj :=
  fun _ => Raise (mkExc StopIteration NoArgs).

(** A callable that raises an exception of a class that derives from
    both [TypeError] and [StopIteration]. *)
Definition weird : Callable PyObj :=
  fun _ => Raise (mkExc (OtherException "Weird" true true) NoArgs).

(** [lambda a, b: a], called with one argument. *)
Definition pair : Callable PyObj :=
  fun _ => Raise (mkExc TypeError
                    (Message "<lambda>() missing 1 required positional argument: 'b'")).

(** [isinstance(v, int)]: [bool] is a subclass of [int]. *)
Definition isinstance_int (v : PyObj) : Result PyObj bool :=
  Return (match v with PyInt _ | PyBool _ => true | _ => false end).

(** [type(v) is int]. *)
Definition type_is_int (v : PyObj) : Result PyObj bool :=
  Return (match v with PyInt _ => true | _ => false end).

#[export] Instance runtime : Runtime PyObj := {|
  format_type v :=
    match v with
    | PyNone => "<class 'NoneType'>"
    | PyInt _ => "<class 'int'>"
    | PyBool _ => "<class 'bool'>"
    | PyStr _ => "<class 'str'>"
    | PyStyle _ => "<enum 'TypeCheckStyle'>"
    | PyCoercionToken _ => "<class 'records.fillers.coercers.CoercionToken'>"
    | PyValidationToken _ => "<class 'records.fillers.validators.ValidationToken'>"
    | PyOpaque name => name
    end;
  as_TypeCheckStyle v := match v with PyStyle s => Some s | _ => None end;
  isinstance_CoercionToken v :=
    match v with PyCoercionToken _ => true | _ => false end;
  isinstance_ValidationToken v :=
    match v with PyValidationToken _ => true | _ => false end;
  callable v :=
    match v with
    | PyCoercionToken "len" => Some str_len
    | PyCoercionToken "refuse" => Some (refuse "refused")
    | PyCoercionToken "pair" => Some pair
    | PyValidationToken "succ" => Some succ
    | PyValidationToken "non_negative" => Some non_negative
    | _ => None
    end;
  accepts_one_argument v :=
    match v with
    | PyCoercionToken "len" => true
    | PyCoercionToken "refuse" => true
    | PyValidationToken "succ" => true
    | PyValidationToken "non_negative" => true
    | _ => false
    end
|}.

(** An [int] filler as [__init__] leaves it, then with a style, coercers
    and validators set. *)
Definition int_filler (tokens : list PyObj) : AnnotatedFiller PyObj :=
  init type_is_int isinstance_int (PyOpaque "int") tokens.

Definition configured (s : TypeCheckStyle.t)
    (cs vs : list (Callable PyObj)) : AnnotatedFiller PyObj :=
  {| type_checking_style := s;
     origin := PyOpaque "int";
     args := [];
     coercers := cs;
     validators := vs;
     type_check_strict := type_is_int;
     type_check := isinstance_int |}.

End Demo.

(** ** The enumerations' equality tests *)

Lemma TypeCheckStyle_eqb_spec (a b : TypeCheckStyle.t) :
  reflect (a = b) (TypeCheckStyle.eqb a b).
Proof. destruct a, b; constructor; congruence. Qed.

Lemma FillingIntent_eqb_spec (a b : FillingIntent.t) :
  reflect (a = b) (FillingIntent.eqb a b).
Proof. destruct a, b; constructor; congruence. Qed.

(** ** The two loops *)

Section Loops.

Context {Value : Type} {rt : Runtime Value}.

Lemma gen_bind_trace {A B} (t : list (Event Value)) (a : A)
    (k : A -> Gen Value B) :
  gen_bind (t, Return a) k = (t ++ trace (k a), outcome (k a)).
Proof. unfold gen_bind, trace, outcome. now destruct (k a). Qed.

Lemma gen_bind_raise {A B} (t : list (Event Value)) (e : PyExc Value)
    (k : A -> Gen Value B) :
  gen_bind (t, Raise e) k = (t, Raise e).
Proof. reflexivity. Qed.

Lemma gen_eta {A} (g : Gen Value A) : g = (trace g, outcome g).
Proof. now destruct g. Qed.

Lemma generator_return {A} (t : list (Event Value)) (a : A) :
  generator (t, Return a) = (t, Return a).
Proof. reflexivity. Qed.

Lemma generator_raise {A} (t : list (Event Value)) (e : PyExc Value) :
  generator (t, @Raise Value A e) = (t, Raise (escaping e)).
Proof. reflexivity. Qed.

Lemma generator_trace {A} (g : Gen Value A) : trace (generator g) = trace g.
Proof. reflexivity. Qed.

Lemma coerce_loop_break n i (c : Callable Value) rest x y :
  c x = Return y ->
  coerce_loop n i (c :: rest) x = ([Call (Coercer i) x], Return y).
Proof.
  intros Hc. cbn [coerce_loop]. unfold call, try_except_TypeError.
  rewrite Hc. reflexivity.
Qed.

Lemma coerce_loop_abort n i (c : Callable Value) rest x e :
  c x = Raise e -> isinstance_TypeError e = false ->
  coerce_loop n i (c :: rest) x = ([Call (Coercer i) x], Raise e).
Proof.
  intros Hc He. cbn [coerce_loop]. unfold call, try_except_TypeError.
  rewrite Hc. cbn. rewrite He. reflexivity.
Qed.

Lemma coerce_loop_reraise n i (c : Callable Value) rest x e :
  c x = Raise e -> isinstance_TypeError e = true -> S i = n ->
  coerce_loop n i (c :: rest) x = ([Call (Coercer i) x], Raise e).
Proof.
  intros Hc He Hi. cbn [coerce_loop]. unfold call, try_except_TypeError.
  rewrite Hc. cbn. rewrite He.
  replace (Z.of_nat i =? Z.of_nat n - 1)%Z with true
    by (symmetry; apply Z.eqb_eq; lia).
  reflexivity.
Qed.

Lemma coerce_loop_continue n i (c : Callable Value) rest x :
  raises_TypeError_on x c -> S i <> n ->
  coerce_loop n i (c :: rest) x
  = (Call (Coercer i) x :: trace (coerce_loop n (S i) rest x),
     outcome (coerce_loop n (S i) rest x)).
Proof.
  intros (e & Hc & He) Hi. cbn [coerce_loop].
  unfold call, try_except_TypeError. rewrite Hc. cbn. rewrite He.
  replace (Z.of_nat i =? Z.of_nat n - 1)%Z with false
    by (symmetry; apply Z.eqb_neq; lia).
  cbn. now destruct (coerce_loop n (S i) rest x).
Qed.

(** Coercers that raise a [TypeError] and are not the last one are passed
    over, each after one call on the unchanged argument. *)
Lemma coerce_loop_skip n (x : Value) pre : forall i rest,
  Forall (raises_TypeError_on x) pre ->
  i + List.length pre < n ->
  coerce_loop n i (pre ++ rest) x
  = (coercer_calls i (List.length pre) x
       ++ trace (coerce_loop n (i + List.length pre) rest x),
     outcome (coerce_loop n (i + List.length pre) rest x)).
Proof.
  induction pre as [|c pre IH]; intros i rest Hpre Hlen.
  - cbn. rewrite Nat.add_0_r. apply gen_eta.
  - inversion Hpre as [|? ? Hc Hpre']; subst. cbn [List.length] in *.
    cbn [app]. rewrite coerce_loop_continue by (auto; lia).
    rewrite IH by (auto; lia). unfold trace, outcome; cbn [fst snd].
    replace (S i + List.length pre) with (i + S (List.length pre)) by lia.
    reflexivity.
Qed.

Lemma validate_loop_app (pre : list (Callable Value)) : forall j rest v u,
  compose pre v = Return u ->
  validators_called (trace (validate_loop j pre v))
    = seq j (List.length pre) /\
  validate_loop j (pre ++ rest) v
  = (trace (validate_loop j pre v)
       ++ trace (validate_loop (j + List.length pre) rest u),
     outcome (validate_loop (j + List.length pre) rest u)).
Proof.
  induction pre as [|f pre IH]; intros j rest v u Hc.
  - cbn in Hc. injection Hc as <-. cbn. rewrite Nat.add_0_r.
    split; [reflexivity | apply gen_eta].
  - unfold compose in Hc. cbn [fold_left] in Hc.
    destruct (f v) as [w|e] eqn:Hf.
    + destruct (IH (S j) rest w u Hc) as [IH1 IH2].
      cbn [validate_loop app List.length]. unfold call. rewrite Hf.
      rewrite !gen_bind_trace. cbn [trace fst].
      rewrite IH2. unfold trace, outcome; cbn [fst snd].
      replace (j + S (List.length pre)) with (S j + List.length pre) by lia.
      split; [cbn; f_equal; exact IH1 | reflexivity].
    + exfalso. clear -Hc. induction pre; cbn in Hc; [discriminate | auto].
Qed.

Lemma intents_app (t1 t2 : list (Event Value)) :
  intents (t1 ++ t2) = intents t1 ++ intents t2.
Proof.
  induction t1 as [|[i|f v] t1 IH]; cbn; [reflexivity | f_equal; exact IH | exact IH].
Qed.

Lemma validators_called_app (t1 t2 : list (Event Value)) :
  validators_called (t1 ++ t2) = validators_called t1 ++ validators_called t2.
Proof.
  induction t1 as [|[i|[| |k|k] v] t1 IH]; cbn; try exact IH;
    [reflexivity | f_equal; exact IH].
Qed.

Lemma coercers_called_app (t1 t2 : list (Event Value)) :
  coercers_called (t1 ++ t2) = coercers_called t1 ++ coercers_called t2.
Proof.
  induction t1 as [|[i|[| |k|k] v] t1 IH]; cbn; try exact IH;
    [reflexivity | f_equal; exact IH].
Qed.

Lemma coerce_loop_intents n (cs : list (Callable Value)) : forall i x,
  intents (trace (coerce_loop n i cs x)) = [].
Proof.
  induction cs as [|c cs IH]; intros i x; [reflexivity|].
  cbn [coerce_loop]. unfold call, try_except_TypeError.
  destruct (c x) as [y|e]; [reflexivity|]. cbn.
  destruct (isinstance_TypeError e); [|reflexivity].
  destruct (Z.of_nat i =? Z.of_nat n - 1)%Z; [reflexivity|]. cbn.
  specialize (IH (S i) x). destruct (coerce_loop n (S i) cs x). exact IH.
Qed.

Lemma coerce_loop_validators n (cs : list (Callable Value)) : forall i x,
  validators_called (trace (coerce_loop n i cs x)) = [].
Proof.
  induction cs as [|c cs IH]; intros i x; [reflexivity|].
  cbn [coerce_loop]. unfold call, try_except_TypeError.
  destruct (c x) as [y|e]; [reflexivity|]. cbn.
  destruct (isinstance_TypeError e); [|reflexivity].
  destruct (Z.of_nat i =? Z.of_nat n - 1)%Z; [reflexivity|]. cbn.
  specialize (IH (S i) x). destruct (coerce_loop n (S i) cs x). exact IH.
Qed.

Lemma validate_loop_intents (vs : list (Callable Value)) : forall j v,
  intents (trace (validate_loop j vs v)) = [].
Proof.
  induction vs as [|f vs IH]; intros j v; [reflexivity|].
  cbn [validate_loop]. unfold call. destruct (f v) as [w|e]; [|reflexivity].
  rewrite gen_bind_trace. cbn. apply IH.
Qed.

Lemma validate_loop_coercers (vs : list (Callable Value)) : forall j v,
  coercers_called (trace (validate_loop j vs v)) = [].
Proof.
  induction vs as [|f vs IH]; intros j v; [reflexivity|].
  cbn [validate_loop]. unfold call. destruct (f v) as [w|e]; [|reflexivity].
  rewrite gen_bind_trace. cbn. apply IH.
Qed.

End Loops.

(** ** Properties of [fill] *)

Section FillProperties.

Context {Value : Type} {rt : Runtime Value}.

Lemma type_checking_rejected (self : AnnotatedFiller Value) (x : Value) :
  check_rejects self x ->
  type_checking self x
  = ([Yield attempt_no_coerce; Call (checker self) x; Yield attempt_coerce]
       ++ trace (coercion self x),
     outcome (coercion self x)).
Proof.
  unfold type_checking, checker.
  intros [[Hs Hc] | [Hs Hc]]; rewrite Hs; cbn; unfold call; rewrite Hc; cbn;
    now destruct (coercion self x).
Qed.

Lemma type_checking_accepted (self : AnnotatedFiller Value) (x : Value) :
  check_accepts self x ->
  type_checking self x
  = ([Yield attempt_no_coerce; Call (checker self) x], Return x).
Proof.
  unfold type_checking, checker.
  intros [[Hs Hc] | [Hs Hc]]; rewrite Hs; cbn; unfold call; rewrite Hc;
    reflexivity.
Qed.

Lemma fill_configured (self : AnnotatedFiller Value) (x : Value) :
  type_checking_style self <> default ->
  fill self x = generator (v <- type_checking self x ;; validation self v).
Proof.
  intros Hs. unfold fill, fill_body.
  destruct (TypeCheckStyle_eqb_spec (type_checking_style self) default);
    [contradiction | reflexivity].
Qed.

Lemma rejects_not_default (self : AnnotatedFiller Value) (x : Value) :
  check_rejects self x -> type_checking_style self <> default.
Proof. intros [[Hs _] | [Hs _]]; rewrite Hs; discriminate. Qed.

Lemma accepts_not_default (self : AnnotatedFiller Value) (x : Value) :
  check_accepts self x -> type_checking_style self <> default.
Proof. intros [[Hs _] | [Hs _]]; rewrite Hs; discriminate. Qed.

Lemma coercion_nonempty (self : AnnotatedFiller Value) (x : Value) c cs :
  coercers self = c :: cs ->
  coercion self x
  = coerce_loop (List.length (coercers self)) 0 (coercers self) x.
Proof. unfold coercion. intros ->. reflexivity. Qed.

End FillProperties.

Section FillClaims.

Context {Value : Type} {rt : Runtime Value}.

Lemma coercion_scan_to (self : AnnotatedFiller Value) (x : Value)
    pre c post :
  coercers self = pre ++ c :: post ->
  Forall (raises_TypeError_on x) pre ->
  coercion self x
  = (coercer_calls 0 (List.length pre) x
       ++ trace (coerce_loop (List.length (coercers self))
                   (List.length pre) (c :: post) x),
     outcome (coerce_loop (List.length (coercers self))
                (List.length pre) (c :: post) x)).
Proof.
  intros Hcs Hpre.
  assert (Hne : exists c' cs', coercers self = c' :: cs').
  { rewrite Hcs. destruct pre; cbn; eauto. }
  destruct Hne as (c' & cs' & Hne).
  rewrite (coercion_nonempty self x c' cs' Hne).
  rewrite Hcs at 2.
  rewrite coerce_loop_skip; [reflexivity | assumption |].
  rewrite Hcs, length_app. cbn. lia.
Qed.

Lemma coercer_calls_snoc i m (x : Value) :
  coercer_calls i m x ++ [Call (Coercer (i + m)) x] = coercer_calls i (S m) x.
Proof.
  unfold coercer_calls. rewrite seq_S, map_app. reflexivity.
Qed.

(** C1, as the code has it.  With style [check] or [check_strict], a
    type check that says no and coercers present, [fill] calls the
    coercers in their order, each on the value it was given: those that
    raise a [TypeError] are passed over; the first that returns gives the
    value that goes to validation and no later coercer is called; and
    when all of them raise a [TypeError], the one raised by the last
    coercer is what leaves the body of [fill], so that [fill] raises it
    unless it is a [StopIteration] as well, which the generator turns
    into a [RuntimeError]. *)
Theorem fill_coercer_scan (self : AnnotatedFiller Value) (x : Value) :
  check_rejects self x ->
  coercers self <> [] ->
  (forall pre c post y,
      coercers self = pre ++ c :: post ->
      Forall (raises_TypeError_on x) pre ->
      c x = Return y ->
      fill self x
      = generator
          (v <- ([Yield attempt_no_coerce; Call (checker self) x;
                  Yield attempt_coerce]
                   ++ coercer_calls 0 (S (List.length pre)) x, Return y) ;;
           validation self v))
  /\
  (forall pre c e,
      coercers self = pre ++ [c] ->
      Forall (raises_TypeError_on x) pre ->
      c x = Raise e ->
      isinstance_TypeError e = true ->
      fill self x
      = ([Yield attempt_no_coerce; Call (checker self) x;
          Yield attempt_coerce]
           ++ coercer_calls 0 (List.length (coercers self)) x,
         Raise (escaping e))
      /\ (isinstance_StopIteration e = false -> escaping e = e)).
Proof.
  intros Hrej _. split.
  - intros pre c post y Hcs Hpre Hc.
    rewrite fill_configured by (eapply rejects_not_default; eauto).
    rewrite type_checking_rejected by assumption.
    rewrite (coercion_scan_to self x pre c post Hcs Hpre).
    rewrite (coerce_loop_break _ _ c post x y Hc).
    unfold trace, outcome; cbn [fst snd].
    rewrite <- (coercer_calls_snoc 0 (List.length pre) x). reflexivity.
  - intros pre c e Hcs Hpre Hc He.
    rewrite fill_configured by (eapply rejects_not_default; eauto).
    rewrite type_checking_rejected by assumption.
    rewrite (coercion_scan_to self x pre c [] Hcs Hpre).
    rewrite (coerce_loop_reraise _ _ c [] x e Hc He)
      by (rewrite Hcs, length_app; cbn; lia).
    unfold trace, outcome; cbn [fst snd]. rewrite gen_bind_raise.
    rewrite Hcs at 1. rewrite length_app. cbn [List.length].
    replace (List.length pre + 1) with (S (List.length pre)) by lia.
    rewrite <- (coercer_calls_snoc 0 (List.length pre) x).
    split; [reflexivity |].
    unfold escaping. now intros ->.
Qed.

(** C4. With style [check] or [check_strict], a type check that says no
    and no coercer, [fill] raises the [TypeError] of line 94, whose
    message carries the type of the value; it is raised by [fill] itself
    after [attempt_coerce], and no coercer is called. *)
Theorem fill_no_coercers_type_mismatch (self : AnnotatedFiller Value)
    (x : Value) :
  check_rejects self x ->
  coercers self = [] ->
  fill self x
  = ([Yield attempt_no_coerce; Call (checker self) x; Yield attempt_coerce],
     Raise (mkExc TypeError
              (Message (String.append
                          "failed type checking for value of type "
                          (format_type x)))))
  /\ coercers_called (trace (fill self x)) = [].
Proof.
  intros Hrej Hcs.
  assert (Hfill : fill self x
    = ([Yield attempt_no_coerce; Call (checker self) x; Yield attempt_coerce],
       Raise (mkExc TypeError
                (Message (String.append
                            "failed type checking for value of type "
                            (format_type x)))))).
  { rewrite fill_configured by (eapply rejects_not_default; eauto).
    rewrite type_checking_rejected by assumption.
    unfold coercion. rewrite Hcs. reflexivity. }
  split; [exact Hfill |].
  rewrite Hfill. unfold checker.
  destruct (TypeCheckStyle.eqb (type_checking_style self) check_strict);
    reflexivity.
Qed.

(** C8. A filler whose style is still [default] when [fill] runs raises
    [NotImplementedError] before anything else: nothing is yielded and
    nothing is called. *)
Theorem fill_default_raises (self : AnnotatedFiller Value) (x : Value) :
  type_checking_style self = default ->
  fill self x = ([], Raise (mkExc NotImplementedError NoArgs)).
Proof. intros Hs. unfold fill, fill_body. rewrite Hs. reflexivity. Qed.

(** C10, as the code has it.  In the scan of the coercers only an
    exception that [except TypeError] catches lets the scan go on; a
    coercer that raises any other exception ends [fill] at once, the
    coercers after it are not called, and the exception leaves the body
    of [fill]: [fill] raises it, or, when it is a [StopIteration], the
    [RuntimeError] the generator makes of it. *)
Theorem fill_coercer_other_exception (self : AnnotatedFiller Value)
    (x : Value) pre c post e :
  check_rejects self x ->
  coercers self = pre ++ c :: post ->
  Forall (raises_TypeError_on x) pre ->
  c x = Raise e ->
  isinstance_TypeError e = false ->
  fill self x
  = ([Yield attempt_no_coerce; Call (checker self) x; Yield attempt_coerce]
       ++ coercer_calls 0 (S (List.length pre)) x,
     Raise (escaping e))
  /\ (isinstance_StopIteration e = false -> escaping e = e).
Proof.
  intros Hrej Hcs Hpre Hc He.
  rewrite fill_configured by (eapply rejects_not_default; eauto).
  rewrite type_checking_rejected by assumption.
  rewrite (coercion_scan_to self x pre c post Hcs Hpre).
  rewrite (coerce_loop_abort _ _ c post x e Hc He).
  unfold trace, outcome; cbn [fst snd]. rewrite gen_bind_raise.
  rewrite <- (coercer_calls_snoc 0 (List.length pre) x).
  split; [reflexivity |].
  unfold escaping. now intros ->.
Qed.

End FillClaims.

Section ValidationClaims.

Context {Value : Type} {rt : Runtime Value}.

Lemma compose_cons (f : Callable Value) vs v :
  compose (f :: vs) v
  = match f v with
    | Return w => compose vs w
    | Raise e => Raise e
    end.
Proof.
  unfold compose. cbn [fold_left]. destruct (f v) as [w|e]; [reflexivity|].
  induction vs; cbn; auto.
Qed.

Lemma validate_loop_outcome (vs : list (Callable Value)) : forall j v,
  outcome (validate_loop j vs v) = compose vs v.
Proof.
  induction vs as [|f vs IH]; intros j v; [reflexivity|].
  rewrite compose_cons. cbn [validate_loop]. unfold call.
  destruct (f v) as [w|e]; [|reflexivity].
  rewrite gen_bind_trace. cbn. apply IH.
Qed.

Lemma validate_loop_calls (vs : list (Callable Value)) : forall j v,
  no_check_no_coercion (trace (validate_loop j vs v)).
Proof.
  induction vs as [|f vs IH]; intros j v g u; [intros []|].
  cbn [validate_loop]. unfold call. destruct (f v) as [w|e].
  - rewrite gen_bind_trace. cbn. intros [H|H].
    + injection H as <- _. reflexivity.
    + eapply IH; eauto.
  - cbn. intros [H|[]]. injection H as <- _. reflexivity.
Qed.

Lemma validate_loop_fail (vi : Callable Value) post j u e :
  vi u = Raise e ->
  validate_loop j (vi :: post) u = ([Call (Validator j) u], Raise e).
Proof. intros H. cbn [validate_loop]. unfold call. now rewrite H. Qed.

Lemma validation_eq (self : AnnotatedFiller Value) (v : Value) :
  validation self v
  = (Yield attempt_validation :: trace (validate_loop 0 (validators self) v),
     compose (validators self) v).
Proof.
  rewrite <- (validate_loop_outcome (validators self) 0 v).
  unfold validation, yield.
  destruct (validate_loop 0 (validators self) v) as [t [w|e]]; cbn;
    [rewrite app_nil_r |]; reflexivity.
Qed.

Lemma type_checking_validators (self : AnnotatedFiller Value) (x : Value) :
  validators_called (trace (type_checking self x)) = [].
Proof.
  unfold type_checking.
  destruct (TypeCheckStyle.eqb (type_checking_style self) hollow);
    [reflexivity|].
  assert (Hco : validators_called (trace (coercion self x)) = []).
  { unfold coercion. destruct (is_empty (coercers self)); [reflexivity|].
    apply coerce_loop_validators. }
  destruct (TypeCheckStyle.eqb (type_checking_style self) check_strict);
    unfold call.
  - destruct (type_check_strict self x) as [[|]|e]; cbn; try reflexivity.
    destruct (coercion self x); exact Hco.
  - destruct (type_check self x) as [[|]|e]; cbn; try reflexivity.
    destruct (coercion self x); exact Hco.
Qed.

Lemma fill_reaching_validation (self : AnnotatedFiller Value) (x : Value)
    t v :
  type_checking_style self <> default ->
  type_checking self x = (t, Return v) ->
  fill self x
  = (t ++ Yield attempt_validation
        :: trace (validate_loop 0 (validators self) v),
     escaped (compose (validators self) v))
  /\ validators_called t = [].
Proof.
  intros Hs Ht. split.
  - rewrite fill_configured by assumption. rewrite Ht, gen_bind_trace.
    rewrite validation_eq. reflexivity.
  - pose proof (type_checking_validators self x) as H.
    rewrite Ht in H. exact H.
Qed.

(** C5, as the code has it.  When [fill] gets to validation with the
    value [v], what leaves its body is the validators composed from left
    to right on [v]; they are called in their order; when the validator
    [vi] raises, no validator after [vi] is called and [fill] raises that
    exception, or, when it is a [StopIteration], the [RuntimeError] the
    generator makes of it; with no validator the value comes back as it
    is. *)
Theorem fill_validator_chain (self : AnnotatedFiller Value) (x : Value)
    t v :
  type_checking_style self <> default ->
  type_checking self x = (t, Return v) ->
  outcome (fill self x) = escaped (compose (validators self) v)
  /\ (forall w,
        compose (validators self) v = Return w ->
        outcome (fill self x) = Return w /\
        validators_called (trace (fill self x))
          = seq 0 (List.length (validators self)))
  /\ (forall pre vi post u e,
        validators self = pre ++ vi :: post ->
        compose pre v = Return u ->
        vi u = Raise e ->
        outcome (fill self x) = Raise (escaping e) /\
        (isinstance_StopIteration e = false -> escaping e = e) /\
        validators_called (trace (fill self x))
          = seq 0 (S (List.length pre)))
  /\ (validators self = [] ->
        fill self x = (t ++ [Yield attempt_validation], Return v)).
Proof.
  intros Hs Ht.
  destruct (fill_reaching_validation self x t v Hs Ht) as [Hfill Hnone].
  split; [| split; [| split]].
  - rewrite Hfill. reflexivity.
  - intros w Hw. rewrite Hfill. split; [cbn [outcome snd]; now rewrite Hw |].
    unfold trace at 1; cbn [fst].
    rewrite validators_called_app, Hnone. cbn.
    exact (proj1 (validate_loop_app (validators self) 0 [] v w Hw)).
  - intros pre vi post u e Hvs Hpre Hvi. rewrite Hfill.
    destruct (validate_loop_app pre 0 (vi :: post) v u Hpre) as [Hc Hrun].
    rewrite (validate_loop_fail vi post _ u e Hvi) in Hrun.
    split; [| split].
    + cbn [outcome snd].
      rewrite <- (validate_loop_outcome (validators self) 0 v), Hvs, Hrun.
      reflexivity.
    + unfold escaping. now intros ->.
    + unfold trace at 1; cbn [fst].
      rewrite validators_called_app, Hnone. cbn [app validators_called].
      rewrite Hvs, Hrun. unfold trace at 1; cbn [fst].
      rewrite validators_called_app, Hc.
      cbn [trace fst validators_called]. rewrite seq_S. reflexivity.
  - intros Hv. rewrite Hfill, Hv. reflexivity.
Qed.

(** C2, as the code has it.  With style [hollow], [fill] yields
    [attempt_hollow], calls no type check and no coercer, and hands [x]
    as it is to validation: what leaves the body is the validators
    composed on [x], so that [fill] returns what they return, which is
    [x] itself when there is no validator, and raises what they raise (a
    [StopIteration] as the [RuntimeError] the generator makes of it). *)
Theorem fill_hollow (self : AnnotatedFiller Value) (x : Value) :
  type_checking_style self = hollow ->
  fill self x
  = ([Yield attempt_hollow; Yield attempt_validation]
       ++ trace (validate_loop 0 (validators self) x),
     escaped (compose (validators self) x))
  /\ no_check_no_coercion (trace (fill self x))
  /\ (validators self = [] ->
      fill self x
      = ([Yield attempt_hollow; Yield attempt_validation], Return x)).
Proof.
  intros Hs.
  assert (Hfill : fill self x
    = ([Yield attempt_hollow; Yield attempt_validation]
         ++ trace (validate_loop 0 (validators self) x),
       escaped (compose (validators self) x))).
  { assert (Hnd : type_checking_style self <> default)
      by (rewrite Hs; discriminate).
    assert (Ht : type_checking self x = ([Yield attempt_hollow], Return x))
      by (unfold type_checking; rewrite Hs; reflexivity).
    destruct (fill_reaching_validation self x _ x Hnd Ht) as [-> _].
    reflexivity. }
  split; [exact Hfill | split].
  - rewrite Hfill. intros f v [H|[H|H]]; try discriminate.
    eapply validate_loop_calls; eauto.
  - intros Hv. rewrite Hfill, Hv. reflexivity.
Qed.

End ValidationClaims.

Section IntentClaims.

Context {Value : Type} {rt : Runtime Value}.

Lemma prefix_firstn {A} n (l : list A) : prefix (firstn n l) l.
Proof. exists (skipn n l). symmetry. apply firstn_skipn. Qed.

Lemma prefix_trans {A} (l1 l2 l3 : list A) :
  prefix l1 l2 -> prefix l2 l3 -> prefix l1 l3.
Proof.
  intros [k1 ->] [k2 ->]. exists (k1 ++ k2). now rewrite app_assoc.
Qed.

Lemma validation_intents (self : AnnotatedFiller Value) (v : Value) :
  intents (trace (validation self v)) = [attempt_validation].
Proof.
  rewrite validation_eq. cbn. now rewrite validate_loop_intents.
Qed.

Lemma coercion_intents (self : AnnotatedFiller Value) (x : Value) :
  intents (trace (coercion self x)) = [].
Proof.
  unfold coercion. destruct (is_empty (coercers self)); [reflexivity|].
  apply coerce_loop_intents.
Qed.

(** The intents of the first stage, with its outcome. *)
Lemma type_checking_intents (self : AnnotatedFiller Value) (x : Value) :
  let l := intents (trace (type_checking self x)) in
  (type_checking_style self = hollow /\ l = [attempt_hollow] /\
   outcome (type_checking self x) = Return x) \/
  (type_checking_style self <> hollow /\
   (l = [attempt_no_coerce] \/ l = [attempt_no_coerce; attempt_coerce])).
Proof.
  unfold type_checking.
  destruct (TypeCheckStyle_eqb_spec (type_checking_style self) hollow)
    as [Hh|Hh]; [left; auto | right; split; [assumption|]].
  pose proof (coercion_intents self x) as Hco.
  destruct (TypeCheckStyle.eqb (type_checking_style self) check_strict);
    unfold call.
  - destruct (type_check_strict self x) as [[|]|e]; cbn; auto.
    right. destruct (coercion self x). cbn in *. now rewrite Hco.
  - destruct (type_check self x) as [[|]|e]; cbn; auto.
    right. destruct (coercion self x). cbn in *. now rewrite Hco.
Qed.

(** The intents of a whole run: one of the three orders in full when the
    first stage gives a value, and else what the first stage had yielded
    when it raised. *)
Lemma fill_intents_shape (self : AnnotatedFiller Value) (x : Value) :
  let l := intents (trace (fill self x)) in
  (type_checking_style self = default /\ l = []) \/
  (type_checking_style self <> default /\
   ((exists t v, type_checking self x = (t, Return v) /\ In l intent_orders)
    \/
    (exists t e, type_checking self x = (t, Raise e) /\
                 fill self x = (t, Raise (escaping e)) /\
                 (l = [attempt_no_coerce] \/
                  l = [attempt_no_coerce; attempt_coerce])))).
Proof.
  cbv zeta.
  destruct (TypeCheckStyle_eqb_spec (type_checking_style self) default)
    as [Hd|Hd].
  - left. split; [assumption|]. unfold fill, fill_body. rewrite Hd.
    reflexivity.
  - right. split; [assumption|]. rewrite (fill_configured self x Hd).
    pose proof (type_checking_intents self x) as Hi. cbv zeta in Hi.
    destruct (type_checking self x) as [t [v|e]] eqn:Ht.
    + left. exists t, v. split; [reflexivity|].
      rewrite generator_trace, gen_bind_trace. unfold trace at 1; cbn [fst].
      rewrite intents_app, validation_intents. cbn [trace fst] in Hi.
      unfold intent_orders.
      destruct Hi as [(_ & -> & _) | (_ & [-> | ->])]; cbn; auto.
    + right. exists t, e. split; [reflexivity|].
      rewrite gen_bind_raise. split; [reflexivity|].
      cbn [generator trace fst outcome snd] in *.
      destruct Hi as [(_ & _ & Ho) | (_ & H)]; [discriminate | exact H].
Qed.

(** C3. The intents [fill] yields, in order, are a prefix of
    [attempt_no_coerce, attempt_coerce, attempt_validation], of
    [attempt_no_coerce, attempt_validation] or of
    [attempt_hollow, attempt_validation], and so is what a driver has
    received when it drops the generator after any number of
    resumptions; [attempt_validation], when yielded, is the last intent
    and is yielded once; it is yielded whenever the style is set and the
    first stage gives a value, so that it is missing only when the style
    is [default] or the first stage raised, [fill] then raising what
    the first stage raised as it leaves a generator. *)
Theorem fill_intent_order (self : AnnotatedFiller Value) (x : Value) :
  let l := intents (trace (fill self x)) in
  (exists o, In o intent_orders /\ prefix l o)
  /\ (forall n, exists o,
        In o intent_orders /\ prefix (observed n (fill self x)) o)
  /\ (In attempt_validation l ->
      exists l', l = l' ++ [attempt_validation] /\
                 ~ In attempt_validation l')
  /\ (type_checking_style self <> default ->
      forall t v, type_checking self x = (t, Return v) ->
                  In attempt_validation l)
  /\ (~ In attempt_validation l ->
      type_checking_style self = default \/
      exists t e, type_checking self x = (t, Raise e) /\
                  fill self x = (t, Raise (escaping e))).
Proof.
  cbv zeta.
  assert (Hpre : exists o, In o intent_orders /\
                           prefix (intents (trace (fill self x))) o).
  { destruct (fill_intents_shape self x)
      as [[_ ->] | [_ [(t & v & _ & Hin) | (t & e & _ & _ & [-> | ->])]]].
    - exists [attempt_hollow; attempt_validation]. split.
      + cbn; auto.
      + now exists [attempt_hollow; attempt_validation].
    - exists (intents (trace (fill self x))).
      split; [assumption | exists []; now rewrite app_nil_r].
    - exists [attempt_no_coerce; attempt_validation]. split.
      + cbn; auto.
      + now exists [attempt_validation].
    - exists [attempt_no_coerce; attempt_coerce; attempt_validation]. split.
      + cbn; auto.
      + now exists [attempt_validation]. }
  split; [exact Hpre | split; [| split; [| split]]].
  - intros n. destruct Hpre as (o & Ho & Hp). exists o.
    split; [assumption|]. eapply prefix_trans; [apply prefix_firstn | exact Hp].
  - intros Hin.
    destruct (fill_intents_shape self x)
      as [[_ Hl] | [_ [(t & v & _ & Ho) | (t & e & _ & _ & Hl)]]].
    + rewrite Hl in Hin. destruct Hin.
    + unfold intent_orders in Ho. cbn [In] in Ho. destruct Ho as [<- | [<- | [<- | []]]].
      * exists [attempt_no_coerce; attempt_coerce]. split; [reflexivity|].
        cbn. intros [H|[H|[]]]; discriminate.
      * exists [attempt_no_coerce]. split; [reflexivity|].
        cbn. intros [H|[]]; discriminate.
      * exists [attempt_hollow]. split; [reflexivity|].
        cbn. intros [H|[]]; discriminate.
    + destruct Hl as [Hl | Hl]; rewrite Hl in Hin; cbn in Hin;
        repeat (destruct Hin as [Hin | Hin]; try discriminate);
        destruct Hin.
  - intros Hd t v Ht.
    destruct (fill_intents_shape self x)
      as [[Hd' _] | [_ [(t' & v' & _ & Ho) | (t' & e & Ht' & _)]]].
    + contradiction.
    + unfold intent_orders in Ho. cbn [In] in Ho. destruct Ho as [<- | [<- | [<- | []]]]; cbn; auto.
    + rewrite Ht in Ht'. discriminate.
  - intros Hnot.
    destruct (fill_intents_shape self x)
      as [[Hd _] | [_ [(t & v & _ & Ho) | (t & e & Ht & Hf & _)]]].
    + left; assumption.
    + exfalso. apply Hnot.
      unfold intent_orders in Ho. cbn [In] in Ho. destruct Ho as [<- | [<- | [<- | []]]]; cbn; auto.
    + right. exists t, e. auto.
Qed.

(** C6. With style [check_strict] the check called is
    [type_check_strict], with style [check] it is [type_check], each
    once, on the value given, right after [attempt_no_coerce].  When the
    check says yes, the value goes to validation as it is:
    [attempt_coerce] is not yielded and no coercer is called.  When it
    says no, [attempt_coerce] is yielded and the coercion of lines 93-102
    runs on the value.  ([fill] being a generator, what these stages end
    with reaches the caller as out of a generator.) *)
Theorem fill_check_selection (self : AnnotatedFiller Value) (x : Value) :
  (forall b,
      type_checking_style self = check_strict ->
      type_check_strict self x = Return b ->
      fill self x
      = generator
          (if b
           then (v <- ([Yield attempt_no_coerce; Call TypeCheckStrict x],
                       Return x) ;;
                 validation self v)
           else (v <- ([Yield attempt_no_coerce; Call TypeCheckStrict x;
                        Yield attempt_coerce] ++ trace (coercion self x),
                       outcome (coercion self x)) ;;
                 validation self v)))
  /\ (forall b,
      type_checking_style self = check ->
      type_check self x = Return b ->
      fill self x
      = generator
          (if b
           then (v <- ([Yield attempt_no_coerce; Call TypeCheck x],
                       Return x) ;;
                 validation self v)
           else (v <- ([Yield attempt_no_coerce; Call TypeCheck x;
                        Yield attempt_coerce] ++ trace (coercion self x),
                       outcome (coercion self x)) ;;
                 validation self v)))
  /\ (check_accepts self x ->
      ~ In attempt_coerce (intents (trace (fill self x))) /\
      coercers_called (trace (fill self x)) = [])
  /\ (check_rejects self x ->
      In attempt_coerce (intents (trace (fill self x)))).
Proof.
  split; [| split; [| split]].
  - intros b Hs Hc.
    rewrite fill_configured by (rewrite Hs; discriminate).
    destruct b.
    + rewrite type_checking_accepted by (right; auto).
      unfold checker. rewrite Hs. reflexivity.
    + rewrite type_checking_rejected by (right; auto).
      unfold checker. rewrite Hs. reflexivity.
  - intros b Hs Hc.
    rewrite fill_configured by (rewrite Hs; discriminate).
    destruct b.
    + rewrite type_checking_accepted by (left; auto).
      unfold checker. rewrite Hs. reflexivity.
    + rewrite type_checking_rejected by (left; auto).
      unfold checker. rewrite Hs. reflexivity.
  - intros Hacc.
    rewrite fill_configured by (eapply accepts_not_default; eauto).
    rewrite type_checking_accepted by assumption.
    rewrite generator_trace, gen_bind_trace, validation_eq.
    pose proof (validate_loop_intents (validators self) 0 x) as Hi.
    pose proof (validate_loop_coercers (validators self) 0 x) as Hv.
    unfold trace in *; cbn [fst].
    split.
    + rewrite intents_app. cbn [intents app]. rewrite Hi.
      intros [H|[H|[]]]; discriminate.
    + rewrite coercers_called_app.
      assert (Hc : coercers_called
                     [Yield attempt_no_coerce; Call (checker self) x] = [])
        by (unfold checker;
            destruct (TypeCheckStyle.eqb (type_checking_style self)
                        check_strict); reflexivity).
      rewrite Hc. cbn. exact Hv.
  - intros Hrej.
    rewrite fill_configured by (eapply rejects_not_default; eauto).
    rewrite type_checking_rejected by assumption.
    rewrite generator_trace.
    destruct (coercion self x) as [t [v|e]]; cbn [trace outcome fst snd].
    + rewrite gen_bind_trace. unfold trace; cbn [fst].
      rewrite !intents_app. cbn. auto.
    + rewrite gen_bind_raise. unfold trace; cbn [fst].
      rewrite intents_app. cbn. auto.
Qed.

End IntentClaims.

(** ** Properties of [bind] and [apply] *)

Section BindClaims.

Context {Value : Type} {rt : Runtime Value}.

Lemma apply_each_app (pre rest : list Value) : forall self,
  apply_each self (pre ++ rest)
  = match apply_each self pre with
    | (self', Return _) => apply_each self' rest
    | (self', Raise e) => (self', Raise e)
    end.
Proof.
  induction pre as [|a pre IH]; intros self; [reflexivity|].
  cbn [app apply_each]. destruct (apply self a) as [s [[]|e]]; [apply IH|].
  reflexivity.
Qed.

(** When the loop of [bind] ends without an exception, every token has
    been applied, in order. *)
Lemma apply_each_all (tokens : list Value) : forall self self',
  apply_each self tokens = (self', Return tt) ->
  self' = fold_left (fun s token => fst (apply s token)) tokens self.
Proof.
  induction tokens as [|a tokens IH]; intros self self' H; cbn in *.
  - now injection H as <-.
  - destruct (apply self a) as [s [[]|e]]; [cbn; auto | discriminate].
Qed.

Lemma is_empty_false {A} (l : list A) : is_empty l = false <-> l <> [].
Proof. destruct l; cbn; split; congruence. Qed.

(** Once [bind] has applied every token, it raises exactly when the
    style it is left with is [default], or is [hollow] with coercers
    present: [NotImplementedError] in the first case, [ValueError] in the
    second; in all other cases it returns. *)
Lemma bind_final_tests (self : AnnotatedFiller Value)
    (owner_cls : Value) (self' : AnnotatedFiller Value) :
  apply_each self (args self) = (self', Return tt) ->
  self' = fold_left (fun s token => fst (apply s token)) (args self) self
  /\ ((exists e, bind self owner_cls = (self', Raise e))
      <-> misconfigured self')
  /\ (type_checking_style self' = default ->
      bind self owner_cls = (self', Raise (mkExc NotImplementedError NoArgs)))
  /\ (type_checking_style self' = hollow -> coercers self' <> [] ->
      bind self owner_cls
      = (self', Raise (mkExc ValueError
                         (Message "cannot have hollow type checking with coercers"))))
  /\ (~ misconfigured self' -> bind self owner_cls = (self', Return tt)).
Proof.
  intros Happ. split; [now apply apply_each_all|].
  unfold bind, misconfigured. rewrite Happ.
  destruct (TypeCheckStyle_eqb_spec (type_checking_style self') default)
    as [Hd|Hd].
  { repeat split; eauto.
    - intros Hh. rewrite Hh in Hd. discriminate.
    - intros Hn. exfalso. apply Hn. auto. }
  destruct (TypeCheckStyle_eqb_spec (type_checking_style self') hollow)
    as [Hh|Hh]; cbn [andb].
  - destruct (is_empty (coercers self')) eqn:He; cbn [negb].
    + assert (Hnil : coercers self' = [])
        by (destruct (coercers self'); [reflexivity | discriminate]).
      repeat split; try congruence.
      * intros [e H]. discriminate.
      * intros [H | [_ H]]; contradiction.
    + apply is_empty_false in He.
      repeat split; eauto; try congruence.
      intros Hn. exfalso. apply Hn. auto.
  - repeat split; try congruence.
    + intros [e H]. discriminate.
    + intros [H | [H _]]; contradiction.
Qed.

(** C9, as the code has it.  A coercion token, or a validation token,
    that [apply] gets is taken exactly when [callable(token)] holds,
    whatever the number of arguments it can be called with: [apply]
    returns, the function is the new last element of [coercers], or of
    [validators], and the other list and the style are as they were;
    otherwise [TypeError(token)] is raised, the filler is left as it was,
    and [bind] ends with that exception at this token.  (A style is
    handled first, and a token of both classes counts as a coercion
    token: lines 120-125.) *)
Theorem apply_token_resolution (self : AnnotatedFiller Value)
    (token : Value) :
  as_TypeCheckStyle token = None ->
  (isinstance_CoercionToken token = true ->
   match callable token with
   | Some f =>
       snd (apply self token) = Return tt
       /\ coercers (fst (apply self token)) = coercers self ++ [f]
       /\ validators (fst (apply self token)) = validators self
       /\ type_checking_style (fst (apply self token))
          = type_checking_style self
   | None =>
       apply self token = (self, Raise (mkExc TypeError (Object token)))
   end)
  /\ (isinstance_CoercionToken token = false ->
      isinstance_ValidationToken token = true ->
      match callable token with
      | Some f =>
          snd (apply self token) = Return tt
          /\ validators (fst (apply self token)) = validators self ++ [f]
          /\ coercers (fst (apply self token)) = coercers self
          /\ type_checking_style (fst (apply self token))
             = type_checking_style self
      | None =>
          apply self token = (self, Raise (mkExc TypeError (Object token)))
      end)
  /\ (forall owner_cls filler pre post self',
        args filler = pre ++ token :: post ->
        apply_each filler pre = (self', Return tt) ->
        isinstance_CoercionToken token = true \/
        isinstance_ValidationToken token = true ->
        callable token = None ->
        bind filler owner_cls
        = (self', Raise (mkExc TypeError (Object token)))).
Proof.
  intros Hst.
  assert (Hbad : forall s,
             isinstance_CoercionToken token = true \/
             isinstance_ValidationToken token = true ->
             callable token = None ->
             apply s token = (s, Raise (mkExc TypeError (Object token)))).
  { intros s Hk Hc. unfold apply, get_coercer, get_validator.
    rewrite Hst, Hc.
    destruct (isinstance_CoercionToken token); [reflexivity|].
    destruct Hk as [Hk | Hk]; [discriminate | now rewrite Hk]. }
  split; [| split].
  - intros Hco. unfold apply, get_coercer. rewrite Hst, Hco.
    destruct (callable token) as [f|]; [|reflexivity].
    cbn. auto.
  - intros Hco Hva. unfold apply, get_validator. rewrite Hst, Hco, Hva.
    destruct (callable token) as [f|]; [|reflexivity].
    cbn. auto.
  - intros owner_cls filler pre post self' Hargs Hpre Hk Hc.
    unfold bind. rewrite Hargs, apply_each_app, Hpre.
    cbn [apply_each]. now rewrite (Hbad self' Hk Hc).
Qed.

End BindClaims.

(** ** Runs on the small universe *)

Import Demo.

(** The scenario of the specification: an [int] field with style
    [check]. *)
Example fill_int_unchanged :
  fill (configured check [str_len] [non_negative]) (PyInt 5)
  = ([Yield attempt_no_coerce; Call TypeCheck (PyInt 5);
      Yield attempt_validation; Call (Validator 0) (PyInt 5)],
     Return (PyInt 5)).
Proof. reflexivity. Qed.

Example fill_str_coerced :
  fill (configured check [str_len] [non_negative]) (PyStr "abc")
  = ([Yield attempt_no_coerce; Call TypeCheck (PyStr "abc");
      Yield attempt_coerce; Call (Coercer 0) (PyStr "abc");
      Yield attempt_validation; Call (Validator 0) (PyInt 3)],
     Return (PyInt 3)).
Proof. reflexivity. Qed.

Example fill_bool_strict :
  outcome (fill (configured check [] []) (PyBool true))
  = Return (PyBool true)
  /\ outcome (fill (configured check_strict [] []) (PyBool true))
     = Raise (mkExc TypeError
                (Message "failed type checking for value of type <class 'bool'>")).
Proof. split; reflexivity. Qed.

Lemma fill_coercer_scan_witness :
  fill (configured check [refuse "no"; str_len; crash "boom"] [succ])
       (PyStr "abc")
  = ([Yield attempt_no_coerce; Call TypeCheck (PyStr "abc");
      Yield attempt_coerce;
      Call (Coercer 0) (PyStr "abc"); Call (Coercer 1) (PyStr "abc");
      Yield attempt_validation; Call (Validator 0) (PyInt 3)],
     Return (PyInt 4))
  /\ fill (configured check_strict [refuse "first"; refuse "last"] [succ])
          (PyStr "abc")
     = ([Yield attempt_no_coerce; Call TypeCheckStrict (PyStr "abc");
         Yield attempt_coerce;
         Call (Coercer 0) (PyStr "abc"); Call (Coercer 1) (PyStr "abc")],
        Raise (mkExc TypeError (Message "last"))).
Proof.
  split.
  - refine (proj1 (fill_coercer_scan
                     (configured check [refuse "no"; str_len; crash "boom"]
                                 [succ])
                     (PyStr "abc") _ _)
                  [refuse "no"] str_len [crash "boom"] (PyInt 3)
                  eq_refl _ eq_refl).
    + left. split; reflexivity.
    + discriminate.
    + constructor; [| constructor].
      exists (mkExc TypeError (Message "no")). split; reflexivity.
  - refine (proj1 (proj2 (fill_coercer_scan
                            (configured check_strict
                                        [refuse "first"; refuse "last"]
                                        [succ])
                            (PyStr "abc") _ _)
                         [refuse "first"] (refuse "last")
                         (mkExc TypeError (Message "last"))
                         eq_refl _ eq_refl eq_refl)).
    + right. split; reflexivity.
    + discriminate.
    + constructor; [| constructor].
      exists (mkExc TypeError (Message "first")). split; reflexivity.
Defined.

(** A [hollow] filler with a validator that changes the value: what
    [fill] returns is not the value it was given. *)
Lemma fill_hollow_changes_value :
  type_checking_style (configured hollow [] [succ]) = hollow
  /\ fill (configured hollow [] [succ]) (PyInt 1)
     = ([Yield attempt_hollow; Yield attempt_validation;
         Call (Validator 0) (PyInt 1)],
        Return (PyInt 2))
  /\ outcome (fill (configured hollow [] [succ]) (PyInt 1))
     <> Return (PyInt 1).
Proof.
  split; [reflexivity | split; [reflexivity |]].
  cbn. intros H. discriminate H.
Qed.

Lemma fill_hollow_witness :
  fill (configured hollow [] [succ; non_negative]) (PyInt 1)
  = ([Yield attempt_hollow; Yield attempt_validation;
      Call (Validator 0) (PyInt 1); Call (Validator 1) (PyInt 2)],
     Return (PyInt 2))
  /\ fill (configured hollow [] []) (PyStr "as is")
     = ([Yield attempt_hollow; Yield attempt_validation],
        Return (PyStr "as is")).
Proof.
  split.
  - exact (proj1 (fill_hollow (configured hollow [] [succ; non_negative])
                              (PyInt 1) eq_refl)).
  - exact (proj2 (proj2 (fill_hollow (configured hollow [] [])
                                     (PyStr "as is") eq_refl)) eq_refl).
Defined.

Lemma fill_intent_order_witness :
  exists o,
    In o intent_orders /\
    prefix (intents (trace (fill (configured check [refuse "no"] [succ])
                                 (PyStr "abc")))) o.
Proof.
  exact (proj1 (fill_intent_order (configured check [refuse "no"] [succ])
                                  (PyStr "abc"))).
Defined.

Lemma fill_no_coercers_type_mismatch_witness :
  fill (configured check [] [succ]) (PyStr "5")
  = ([Yield attempt_no_coerce; Call TypeCheck (PyStr "5");
      Yield attempt_coerce],
     Raise (mkExc TypeError
              (Message "failed type checking for value of type <class 'str'>")))
  /\ coercers_called (trace (fill (configured check [] [succ]) (PyStr "5")))
     = [].
Proof.
  refine (fill_no_coercers_type_mismatch (configured check [] [succ])
                                         (PyStr "5") _ eq_refl).
  left. split; reflexivity.
Defined.

Lemma fill_validator_chain_witness :
  outcome (fill (configured check [] [succ; non_negative; succ])
                (PyInt (-5)))
  = Raise (mkExc ValueError (Message "negative"))
  /\ validators_called
       (trace (fill (configured check [] [succ; non_negative; succ])
                    (PyInt (-5))))
     = [0; 1].
Proof.
  assert (Hnd : type_checking_style
                  (configured check [] [succ; non_negative; succ])
                <> default) by discriminate.
  pose proof (proj1 (proj2 (proj2
                (fill_validator_chain
                   (configured check [] [succ; non_negative; succ])
                   (PyInt (-5))
                   [Yield attempt_no_coerce; Call TypeCheck (PyInt (-5))]
                   (PyInt (-5)) Hnd eq_refl)))
                [succ] non_negative [succ] (PyInt (-4))
                (mkExc ValueError (Message "negative"))
                eq_refl eq_refl eq_refl) as H.
  exact (conj (proj1 H) (proj2 (proj2 H))).
Defined.

Lemma fill_check_selection_witness :
  fill (configured check_strict [str_len] [succ]) (PyBool true)
  = ([Yield attempt_no_coerce; Call TypeCheckStrict (PyBool true);
      Yield attempt_coerce; Call (Coercer 0) (PyBool true)],
     Raise (mkExc TypeError (Message "object has no len()")))
  /\ fill (configured check [str_len] [succ]) (PyBool true)
     = ([Yield attempt_no_coerce; Call TypeCheck (PyBool true);
         Yield attempt_validation; Call (Validator 0) (PyBool true)],
        Return (PyInt 2)).
Proof.
  split.
  - exact (proj1 (fill_check_selection
                    (configured check_strict [str_len] [succ])
                    (PyBool true)) false eq_refl eq_refl).
  - exact (proj1 (proj2 (fill_check_selection
                           (configured check [str_len] [succ])
                           (PyBool true))) true eq_refl eq_refl).
Defined.

Lemma fill_default_raises_witness :
  fill (int_filler []) (PyInt 5)
  = ([], Raise (mkExc NotImplementedError NoArgs)).
Proof.
  exact (fill_default_raises (int_filler []) (PyInt 5) eq_refl).
Defined.

Lemma apply_token_resolution_witness :
  apply (int_filler []) (PyCoercionToken "int")
  = (int_filler [],
     Raise (mkExc TypeError (Object (PyCoercionToken "int"))))
  /\ (snd (apply (configured check [str_len] [non_negative])
                 (PyValidationToken "succ")) = Return tt
      /\ validators (fst (apply (configured check [str_len] [non_negative])
                                (PyValidationToken "succ")))
         = [non_negative; succ]
      /\ coercers (fst (apply (configured check [str_len] [non_negative])
                              (PyValidationToken "succ")))
         = [str_len]
      /\ type_checking_style
           (fst (apply (configured check [str_len] [non_negative])
                       (PyValidationToken "succ")))
         = check).
Proof.
  split.
  - exact (proj1 (apply_token_resolution (int_filler [])
                    (PyCoercionToken "int") eq_refl) eq_refl).
  - exact (proj1 (proj2 (apply_token_resolution
                           (configured check [str_len] [non_negative])
                           (PyValidationToken "succ") eq_refl))
                 eq_refl eq_refl).
Defined.

Lemma fill_coercer_other_exception_witness :
  fill (configured check [refuse "no"; crash "boom"; str_len] [succ])
       (PyStr "abc")
  = ([Yield attempt_no_coerce; Call TypeCheck (PyStr "abc");
      Yield attempt_coerce;
      Call (Coercer 0) (PyStr "abc"); Call (Coercer 1) (PyStr "abc")],
     Raise (mkExc ValueError (Message "boom"))).
Proof.
  refine (proj1 (fill_coercer_other_exception
                   (configured check [refuse "no"; crash "boom"; str_len]
                               [succ])
                   (PyStr "abc") [refuse "no"] (crash "boom") [str_len]
                   (mkExc ValueError (Message "boom"))
                   _ eq_refl _ eq_refl eq_refl)).
  - left. split; reflexivity.
  - constructor; [| constructor].
    exists (mkExc TypeError (Message "no")). split; reflexivity.
Defined.

(** ** [bind] read from the tokens *)

Section BindFromTokens.

Context {Value : Type} {rt : Runtime Value}.

Lemma configure_nil (self : AnnotatedFiller Value) : configure self [] = self.
Proof.
  destruct self. unfold configure, coercers_of, validators_of. cbn.
  now rewrite !app_nil_r.
Qed.

Lemma apply_resolvable (self : AnnotatedFiller Value) (token : Value) :
  unresolvable token = false ->
  apply self token = (configure self [token], Return tt).
Proof.
  unfold unresolvable, apply, configure, coercers_of, validators_of,
    get_coercer, get_validator, set_type_checking_style, coercers_append,
    validators_append, style_after.
  intros Hu. destruct self. cbn.
  destruct (as_TypeCheckStyle token) as [s|];
    [now rewrite !app_nil_r|].
  destruct (isinstance_CoercionToken token).
  - destruct (callable token); [|discriminate]. cbn.
    now rewrite !app_nil_r.
  - destruct (isinstance_ValidationToken token).
    + destruct (callable token); [|discriminate]. cbn.
      now rewrite !app_nil_r.
    + cbn. now rewrite !app_nil_r.
Qed.

Lemma apply_unresolvable (self : AnnotatedFiller Value) (token : Value) :
  unresolvable token = true ->
  apply self token = (self, Raise (mkExc TypeError (Object token))).
Proof.
  unfold unresolvable, apply, get_coercer, get_validator. intros Hu.
  destruct (as_TypeCheckStyle token); [discriminate|].
  destruct (callable token).
  { rewrite andb_false_r in Hu. discriminate. }
  destruct (isinstance_CoercionToken token); [reflexivity|].
  destruct (isinstance_ValidationToken token); [reflexivity | discriminate].
Qed.

Lemma configure_cons (self : AnnotatedFiller Value) token tokens :
  configure (configure self [token]) tokens = configure self (token :: tokens).
Proof.
  unfold configure, coercers_of, validators_of, style_after. cbn.
  rewrite !app_nil_r, <- !app_assoc. reflexivity.
Qed.

Lemma apply_each_configure (tokens : list Value) : forall self,
  apply_each self tokens
  = (configure self (fst (applicable tokens)),
     loop_outcome (snd (applicable tokens))).
Proof.
  induction tokens as [|token rest IH]; intros self.
  - cbn. now rewrite configure_nil.
  - cbn [apply_each applicable].
    destruct (unresolvable token) eqn:Hu.
    + rewrite (apply_unresolvable self token Hu). cbn.
      now rewrite configure_nil.
    + rewrite (apply_resolvable self token Hu), IH.
      destruct (applicable rest) as [pre bad]. cbn [fst snd].
      now rewrite configure_cons.
Qed.

Lemma applicable_all (tokens : list Value) :
  forallb (fun token => negb (unresolvable token)) tokens = true ->
  applicable tokens = (tokens, None).
Proof.
  induction tokens as [|token rest IH]; [reflexivity|].
  cbn. destruct (unresolvable token); [discriminate|]. cbn.
  intros H. now rewrite (IH H).
Qed.

Lemma applicable_bad (tokens : list Value) : forall token,
  snd (applicable tokens) = Some token ->
  In token tokens /\ unresolvable token = true /\
  forallb (fun token => negb (unresolvable token)) tokens = false.
Proof.
  induction tokens as [|t rest IH]; intros token; [discriminate|].
  cbn. destruct (unresolvable t) eqn:Hu.
  - cbn. intros H. injection H as <-. auto.
  - destruct (applicable rest) as [pre bad]. cbn in *. intros H.
    destruct (IH token H) as (Hin & Hb & Hall). auto.
Qed.

Lemma applicable_none (tokens : list Value) :
  snd (applicable tokens) = None ->
  applicable tokens = (tokens, None).
Proof.
  induction tokens as [|t rest IH]; [reflexivity|].
  cbn. destruct (unresolvable t); [discriminate|].
  destruct (applicable rest) as [pre bad]. cbn in *.
  intros H. specialize (IH H). now injection IH as -> ->.
Qed.

(** The style after the tokens either does not look at the style there
    was, or is that style. *)
Lemma style_after_cases (tokens : list Value) :
  (exists s', forall s, style_after tokens s = s') \/
  (forall s, style_after tokens s = s).
Proof.
  induction tokens as [|t rest IH]; [right; reflexivity|].
  unfold style_after in *. cbn [fold_left].
  destruct IH as [[s' IH] | IH].
  - left. exists s'. intros s. apply IH.
  - destruct (as_TypeCheckStyle t) as [s'|].
    + left. exists s'. intros s. apply IH.
    + right. intros s. apply IH.
Qed.

Lemma style_after_idem (tokens : list Value) s :
  style_after tokens (style_after tokens s) = style_after tokens s.
Proof.
  destruct (style_after_cases tokens) as [[s' H] | H]; now rewrite !H.
Qed.

Lemma is_empty_app {A} (l1 l2 : list A) :
  is_empty (l1 ++ l2) = is_empty l1 && is_empty l2.
Proof. destruct l1; reflexivity. Qed.

Lemma bind_from_tokens (self : AnnotatedFiller Value) (owner_cls : Value) :
  bind self owner_cls
  = (configure self (fst (applicable (args self))),
     match snd (applicable (args self)) with
     | Some token => Raise (mkExc TypeError (Object token))
     | None => final_checks (configure self (args self))
     end).
Proof.
  unfold bind. rewrite apply_each_configure.
  destruct (applicable (args self)) as [pre bad] eqn:Happ.
  cbn [fst snd loop_outcome]. destruct bad as [token|]; [reflexivity|].
  assert (Hpre : pre = args self).
  { pose proof (applicable_none (args self)) as H. rewrite Happ in H.
    specialize (H eq_refl). now injection H. }
  subst pre. unfold final_checks.
  destruct (TypeCheckStyle.eqb _ default); [reflexivity|].
  destruct (_ && _); reflexivity.
Qed.

End BindFromTokens.

Section BindExtras.

Context {Value : Type} {rt : Runtime Value}.

Lemma forallb_applicable (tokens : list Value) :
  forallb (fun token => negb (unresolvable token)) tokens
  = match snd (applicable tokens) with
    | None => true
    | Some _ => false
    end.
Proof.
  induction tokens as [|t rest IH]; [reflexivity|].
  cbn. destruct (unresolvable t); [reflexivity|].
  destruct (applicable rest) as [pre bad]. cbn in *. exact IH.
Qed.

Lemma applicable_split (pre post : list Value) (token : Value) :
  forallb (fun token => negb (unresolvable token)) pre = true ->
  unresolvable token = true ->
  applicable (pre ++ token :: post) = (pre, Some token).
Proof.
  intros Hpre Hbad. induction pre as [|t pre IH]; cbn.
  - now rewrite Hbad.
  - cbn in Hpre. apply andb_prop in Hpre as [Ht Hpre].
    destruct (unresolvable t); [discriminate|]. now rewrite (IH Hpre).
Qed.

(** X1. When every token of [args] resolves, the loop of [bind] leaves
    the filler with the style of the last style token (the style it had
    when there is none), with the functions of the coercion tokens
    appended to its coercers in the order of the tokens, and those of the
    validation tokens appended to its validators in that order; tokens
    of no known kind change nothing; and [bind] ends with the two final
    tests on that filler. *)
Theorem bind_follows_token_order (self : AnnotatedFiller Value)
    (owner_cls : Value) :
  forallb (fun token => negb (unresolvable token)) (args self) = true ->
  type_checking_style (fst (bind self owner_cls))
    = style_after (args self) (type_checking_style self)
  /\ coercers (fst (bind self owner_cls))
     = coercers self ++ coercers_of (args self)
  /\ validators (fst (bind self owner_cls))
     = validators self ++ validators_of (args self)
  /\ snd (bind self owner_cls) = final_checks (fst (bind self owner_cls)).
Proof.
  intros Hall. rewrite bind_from_tokens.
  rewrite (applicable_all (args self) Hall). cbn. auto.
Qed.

(** X2. [bind] stops at the first token that does not resolve: it raises
    [TypeError(token)] for it whatever the style is, the tokens before it
    stay applied to the filler, and the tokens after it are not
    applied. *)
Theorem bind_stops_at_first_unresolvable (self : AnnotatedFiller Value)
    (owner_cls : Value) pre token post :
  args self = pre ++ token :: post ->
  forallb (fun token => negb (unresolvable token)) pre = true ->
  unresolvable token = true ->
  bind self owner_cls
  = (configure self pre, Raise (mkExc TypeError (Object token))).
Proof.
  intros Hargs Hpre Hbad. rewrite bind_from_tokens, Hargs.
  now rewrite (applicable_split pre post token Hpre Hbad).
Qed.

(** X3. The only exceptions [bind] raises are [NotImplementedError()],
    the [ValueError] of line 117, and [TypeError(token)] for a token of
    [args] that does not resolve. *)
Theorem bind_raises_only (self : AnnotatedFiller Value) (owner_cls : Value)
    (self' : AnnotatedFiller Value) (e : PyExc Value) :
  bind self owner_cls = (self', Raise e) ->
  e = mkExc NotImplementedError NoArgs
  \/ e = mkExc ValueError
           (Message "cannot have hollow type checking with coercers")
  \/ exists token,
       In token (args self) /\ unresolvable token = true /\
       e = mkExc TypeError (Object token).
Proof.
  rewrite bind_from_tokens. intros H. injection H as _ H.
  destruct (snd (applicable (args self))) as [token|] eqn:Hbad.
  - injection H as <-. right. right. exists token.
    destruct (applicable_bad (args self) token Hbad) as (Hin & Hu & _). auto.
  - unfold final_checks in H.
    destruct (TypeCheckStyle.eqb _ default);
      [injection H as <-; auto|].
    destruct (_ && _); [injection H as <-; auto | discriminate].
Qed.

(** X4. Whatever [bind] ends with, it has only added at the end of the
    coercers and of the validators that were there, and has left [args],
    [origin] and the two type checks as they were. *)
Theorem bind_keeps (self : AnnotatedFiller Value) (owner_cls : Value) :
  prefix (coercers self) (coercers (fst (bind self owner_cls)))
  /\ prefix (validators self) (validators (fst (bind self owner_cls)))
  /\ args (fst (bind self owner_cls)) = args self
  /\ origin (fst (bind self owner_cls)) = origin self
  /\ type_check (fst (bind self owner_cls)) = type_check self
  /\ type_check_strict (fst (bind self owner_cls)) = type_check_strict self.
Proof.
  rewrite bind_from_tokens. cbn. unfold prefix. repeat split; eauto.
Qed.

(** X5. Binding a filler a second time ends as the first time did, and
    appends once more what the applied tokens had appended: the style is
    the same, the coercers and validators of the tokens are there
    twice. *)
Theorem bind_twice (self : AnnotatedFiller Value) (owner_cls : Value) :
  let once := fst (bind self owner_cls) in
  let twice := fst (bind once owner_cls) in
  snd (bind once owner_cls) = snd (bind self owner_cls)
  /\ type_checking_style twice = type_checking_style once
  /\ coercers twice
     = coercers once ++ coercers_of (fst (applicable (args self)))
  /\ validators twice
     = validators once ++ validators_of (fst (applicable (args self))).
Proof.
  cbv zeta. rewrite (bind_from_tokens self). cbn [fst snd].
  rewrite bind_from_tokens. cbn [fst snd args configure].
  split; [| split; [| split]]; cbn; try reflexivity.
  - destruct (snd (applicable (args self))) eqn:Hbad; [reflexivity|].
    rewrite (applicable_none (args self) Hbad). cbn [fst].
    unfold final_checks. cbn. rewrite style_after_idem.
    rewrite !is_empty_app.
    destruct (TypeCheckStyle.eqb _ default); [reflexivity|].
    destruct (TypeCheckStyle.eqb _ hollow); [|reflexivity].
    destruct (is_empty (coercers self)), (is_empty (coercers_of (args self)));
      reflexivity.
  - apply style_after_idem.
Qed.

(** X6. After a [bind] that returned, the style is not [default], a
    [hollow] filler has no coercer, and every run of [fill] passes the
    test of lines 78-79, goes on to its stages and yields a first intent,
    [attempt_hollow] under [hollow] and [attempt_no_coerce] otherwise. *)
Theorem bind_then_fill (self : AnnotatedFiller Value) (owner_cls : Value)
    (self' : AnnotatedFiller Value) :
  bind self owner_cls = (self', Return tt) ->
  type_checking_style self' <> default
  /\ (type_checking_style self' = hollow -> coercers self' = [])
  /\ forall x,
       fill self' x
       = generator (v <- type_checking self' x ;; validation self' v)
       /\ exists rest,
            intents (trace (fill self' x))
            = (if TypeCheckStyle.eqb (type_checking_style self') hollow
               then attempt_hollow else attempt_no_coerce) :: rest.
Proof.
  unfold bind. destruct (apply_each self (args self)) as [s [[]|e]];
    [|discriminate].
  destruct (TypeCheckStyle_eqb_spec (type_checking_style s) default)
    as [Hd|Hd]; [discriminate|].
  destruct (TypeCheckStyle_eqb_spec (type_checking_style s) hollow)
    as [Hh|Hh]; cbn [andb].
  - destruct (is_empty (coercers s)) eqn:He; cbn [negb]; [|discriminate].
    intros H. injection H as <-. split; [assumption | split].
    + intros _. destruct (coercers s); [reflexivity | discriminate].
    + intros x. rewrite (fill_configured s x Hd).
      split; [reflexivity |]. rewrite generator_trace.
      assert (Ht : type_checking s x = ([Yield attempt_hollow], Return x))
        by (unfold type_checking; rewrite Hh; reflexivity).
      rewrite Ht, gen_bind_trace. rewrite Hh. cbn. eauto.
  - intros H. injection H as <-. split; [assumption | split].
    + intros Hh'. contradiction.
    + intros x. rewrite (fill_configured s x Hd).
      split; [reflexivity |]. rewrite generator_trace.
      destruct (TypeCheckStyle_eqb_spec (type_checking_style s) hollow)
        as [Hh'|_]; [contradiction|].
      pose proof (type_checking_intents s x) as Hi. cbv zeta in Hi.
      destruct Hi as [(Hh' & _) | (_ & Hi)]; [contradiction|].
      destruct (type_checking s x) as [t [v|e]].
      * rewrite gen_bind_trace. unfold trace in *; cbn [fst] in *.
        rewrite intents_app. destruct Hi as [-> | ->]; cbn; eauto.
      * rewrite gen_bind_raise. unfold trace in *; cbn [fst] in *.
        destruct Hi as [-> | ->]; eauto.
Qed.

(** X7. A new filler, as [__init__] makes it, binds without an exception
    exactly when its tokens all resolve, the last style token is there
    and is not [default], and it is not [hollow] with a coercion token;
    the bound filler then has the last style, and the functions of the
    tokens as its coercers and validators, in the order of the tokens. *)
Theorem bind_new_filler (strict nonstrict : Value -> Result Value bool)
    (origin owner_cls : Value) (tokens : list Value) :
  (snd (bind (init strict nonstrict origin tokens) owner_cls) = Return tt
   <-> well_configured tokens = true)
  /\ (well_configured tokens = true ->
      bind (init strict nonstrict origin tokens) owner_cls
      = ({| type_checking_style := style_after tokens default;
            origin := origin;
            args := tokens;
            coercers := coercers_of tokens;
            validators := validators_of tokens;
            type_check_strict := strict;
            type_check := nonstrict |},
         Return tt)).
Proof.
  rewrite bind_from_tokens. cbn [args init fst snd].
  unfold well_configured. rewrite forallb_applicable.
  destruct (applicable tokens) as [pre bad] eqn:Happ. cbn [fst snd].
  destruct bad as [token|].
  - cbn. split; [split |]; discriminate.
  - pose proof (applicable_none tokens) as Hn. rewrite Happ in Hn.
    specialize (Hn eq_refl). injection Hn as ->.
    unfold final_checks, configure. cbn.
    destruct (TypeCheckStyle.eqb (style_after tokens default) default);
      [cbn; split; [split |]; discriminate|].
    destruct (TypeCheckStyle.eqb (style_after tokens default) hollow
              && negb (is_empty (coercers_of tokens)));
      cbn; split; try split; try discriminate; reflexivity.
Qed.

End BindExtras.

Section BindOutcome.

Context {Value : Type} {rt : Runtime Value}.

Lemma final_checks_misconfigured (self : AnnotatedFiller Value) :
  (exists e, final_checks self = Raise e) <-> misconfigured self.
Proof.
  unfold final_checks, misconfigured.
  destruct (TypeCheckStyle_eqb_spec (type_checking_style self) default)
    as [Hd|Hd]; [split; eauto|].
  destruct (TypeCheckStyle_eqb_spec (type_checking_style self) hollow)
    as [Hh|Hh]; cbn [andb].
  - destruct (is_empty (coercers self)) eqn:He; cbn [negb].
    + assert (Hnil : coercers self = [])
        by (destruct (coercers self); [reflexivity | discriminate]).
      split; [intros [e H]; discriminate |].
      intros [H | [_ H]]; contradiction.
    + apply is_empty_false in He. split; eauto.
  - split; [intros [e H]; discriminate |].
    intros [H | [H _]]; contradiction.
Qed.

(** C7, as the code has it.  [bind] applies the tokens in order and
    raises exactly when a coercion or validation token does not resolve,
    or the style it is left with is [default], or is [hollow] with
    coercers present.  In the first case the loop stops at the first such
    token with [TypeError(token)], whatever the style is; once every
    token has been applied, [NotImplementedError] is raised for
    [default], [ValueError] for [hollow] with coercers, and in all other
    cases [bind] returns. *)
Theorem bind_postconditions (self : AnnotatedFiller Value)
    (owner_cls : Value) :
  ((exists e, snd (bind self owner_cls) = Raise e)
   <-> (exists token, In token (args self) /\ unresolvable token = true)
       \/ misconfigured (fst (bind self owner_cls)))
  /\ (forall self' e,
        apply_each self (args self) = (self', Raise e) ->
        bind self owner_cls = (self', Raise e)
        /\ exists token,
             In token (args self) /\ unresolvable token = true /\
             e = mkExc TypeError (Object token))
  /\ (forall self',
        apply_each self (args self) = (self', Return tt) ->
        self' = fold_left (fun s token => fst (apply s token))
                          (args self) self
        /\ ((exists e, bind self owner_cls = (self', Raise e))
            <-> misconfigured self')
        /\ (type_checking_style self' = default ->
            bind self owner_cls
            = (self', Raise (mkExc NotImplementedError NoArgs)))
        /\ (type_checking_style self' = hollow -> coercers self' <> [] ->
            bind self owner_cls
            = (self', Raise (mkExc ValueError
                               (Message "cannot have hollow type checking with coercers"))))
        /\ (~ misconfigured self' ->
            bind self owner_cls = (self', Return tt))).
Proof.
  split; [| split].
  - rewrite bind_from_tokens. cbn [fst snd].
    destruct (snd (applicable (args self))) as [token|] eqn:Hbad.
    + destruct (applicable_bad (args self) token Hbad) as (Hin & Hu & _).
      split; [intros _; left; eauto | intros _; eauto].
    + rewrite (applicable_none (args self) Hbad). cbn [fst].
      rewrite final_checks_misconfigured. split; [auto |].
      intros [(token & Hin & Hu) | H]; [| exact H].
      pose proof (forallb_applicable (args self)) as Hall.
      rewrite Hbad in Hall.
      rewrite forallb_forall in Hall. specialize (Hall token Hin).
      rewrite Hu in Hall. discriminate.
  - intros self' e Happ. split.
    + unfold bind. now rewrite Happ.
    + rewrite apply_each_configure in Happ. injection Happ as _ Hout.
      destruct (snd (applicable (args self))) as [token|] eqn:Hbad;
        [| discriminate].
      injection Hout as <-. exists token.
      destruct (applicable_bad (args self) token Hbad) as (Hin & Hu & _).
      auto.
  - intros self' Happ. exact (bind_final_tests self owner_cls self' Happ).
Qed.

End BindOutcome.

(** ** More on [fill] *)

Section FillExtras.

Context {Value : Type} {rt : Runtime Value}.

Lemma coercer_calls_cons i k (x : Value) :
  coercer_calls i (S k) x = Call (Coercer i) x :: coercer_calls (S i) k x.
Proof. reflexivity. Qed.

Lemma coercer_calls_called i k (x : Value) :
  coercers_called (coercer_calls i k x) = seq i k.
Proof.
  revert i. induction k as [|k IH]; intros i; [reflexivity|].
  rewrite coercer_calls_cons. cbn. now rewrite IH.
Qed.

Lemma coercer_calls_checks i k (x : Value) :
  checks_called (coercer_calls i k x) = []
  /\ validators_called (coercer_calls i k x) = [].
Proof.
  revert i. induction k as [|k IH]; intros i; [split; reflexivity|].
  rewrite coercer_calls_cons. cbn. apply IH.
Qed.

Lemma coercer_calls_in i k (x : Value) f v :
  In (Call f v) (coercer_calls i k x) -> before_validation f = true /\ v = x.
Proof.
  unfold coercer_calls. rewrite in_map_iff. intros (j & H & _).
  injection H as <- <-. auto.
Qed.

(** The scan of the coercers, whatever they do: the calls made, and the
    outcome. *)
Lemma coerce_loop_scan (x : Value) (cs : list (Callable Value)) : forall i,
  cs <> [] ->
  coerce_loop (i + List.length cs) i cs x
  = (coercer_calls i
       (Nat.min (List.length cs) (S (leading_passed_over cs x))) x,
     scan_outcome cs x).
Proof.
  induction cs as [|c rest IH]; intros i Hne; [contradiction|].
  unfold scan_outcome. cbn [find leading_passed_over List.length map].
  destruct (c x) as [y|e] eqn:Hc; cbn [passed_over negb].
  - rewrite (coerce_loop_break _ i c rest x y Hc), Hc.
    replace (Nat.min (S (List.length rest)) 1) with 1 by lia. reflexivity.
  - destruct (isinstance_TypeError e) eqn:He; cbn [negb].
    + destruct rest as [|c' rest'].
      * rewrite (coerce_loop_reraise _ i c [] x e Hc He)
          by (cbn; lia).
        reflexivity.
      * rewrite coerce_loop_continue
          by ((exists e; auto) || (cbn; lia)).
        replace (i + S (List.length (c' :: rest')))
          with (S i + List.length (c' :: rest')) by lia.
        rewrite IH by discriminate. unfold trace, outcome; cbn [fst snd].
        unfold scan_outcome.
        replace (Nat.min (S (List.length (c' :: rest')))
                   (S (S (leading_passed_over (c' :: rest') x))))
          with (S (Nat.min (List.length (c' :: rest'))
                     (S (leading_passed_over (c' :: rest') x))))
          by reflexivity.
        rewrite coercer_calls_cons. reflexivity.
    + rewrite (coerce_loop_abort _ i c rest x e Hc He), Hc.
      replace (Nat.min (S (List.length rest)) 1) with 1 by lia. reflexivity.
Qed.

Lemma coercion_trace (self : AnnotatedFiller Value) (x : Value) :
  exists k, k <= List.length (coercers self) /\
            trace (coercion self x) = coercer_calls 0 k x.
Proof.
  unfold coercion. destruct (coercers self) as [|c cs] eqn:Hcs.
  - exists 0. split; [lia | reflexivity].
  - cbn [is_empty].
    pose proof (coerce_loop_scan x (c :: cs) 0) as H. cbn [Nat.add] in H.
    rewrite H by discriminate.
    eexists. split; [| reflexivity]. apply Nat.le_min_l.
Qed.

Lemma validate_loop_called (vs : list (Callable Value)) : forall j v,
  exists m, m <= List.length vs /\
            validators_called (trace (validate_loop j vs v)) = seq j m.
Proof.
  induction vs as [|f vs IH]; intros j v.
  - exists 0. split; [lia | reflexivity].
  - cbn [validate_loop]. unfold call. destruct (f v) as [w|e].
    + destruct (IH (S j) w) as (m & Hm & Hc). exists (S m).
      split; [cbn; lia|]. rewrite gen_bind_trace. cbn. now rewrite Hc.
    + exists 1. split; [cbn; lia | reflexivity].
Qed.

Lemma type_checking_discipline (self : AnnotatedFiller Value) (x : Value) :
  exists k,
    k <= List.length (coercers self)
    /\ (forall f v, In (Call f v) (trace (type_checking self x)) ->
                    before_validation f = true /\ v = x)
    /\ List.length (checks_called (trace (type_checking self x))) <= 1
    /\ coercers_called (trace (type_checking self x)) = seq 0 k.
Proof.
  destruct (coercion_trace self x) as (k & Hk & Hco).
  assert (Hrej : forall chk : Callee,
             chk = TypeCheckStrict \/ chk = TypeCheck ->
             let t := [Yield attempt_no_coerce; Call chk x;
                       Yield attempt_coerce] ++ coercer_calls 0 k x in
             (forall f v, In (Call f v) t ->
                          before_validation f = true /\ v = x)
             /\ List.length (checks_called t) <= 1
             /\ coercers_called t = seq 0 k).
  { intros chk Hchk. cbv zeta. cbn [app]. repeat split.
    - destruct H as [H|[H|[H|H]]]; try discriminate.
      + injection H as <- _. destruct Hchk; subst; reflexivity.
      + eapply coercer_calls_in; eauto.
    - destruct H as [H|[H|[H|H]]]; try discriminate.
      + now injection H.
      + eapply coercer_calls_in; eauto.
    - destruct Hchk; subst; cbn;
        rewrite (proj1 (coercer_calls_checks 0 k x)); cbn; lia.
    - destruct Hchk; subst; cbn; apply coercer_calls_called. }
  assert (Hacc : forall chk : Callee,
             chk = TypeCheckStrict \/ chk = TypeCheck ->
             let t := [Yield attempt_no_coerce; Call chk x] in
             (forall f v, In (Call f v) t ->
                          before_validation f = true /\ v = x)
             /\ List.length (checks_called t) <= 1
             /\ coercers_called t = seq 0 0).
  { intros chk Hchk. cbv zeta. repeat split.
    - destruct H as [H|[H|[]]]; try discriminate.
      injection H as <- _. destruct Hchk; subst; reflexivity.
    - destruct H as [H|[H|[]]]; try discriminate. now injection H.
    - destruct Hchk; subst; cbn; lia.
    - destruct Hchk; subst; reflexivity. }
  unfold type_checking.
  destruct (TypeCheckStyle.eqb (type_checking_style self) hollow).
  { exists 0. cbn. repeat split; try lia; destruct H as [H|[]]; discriminate. }
  destruct (TypeCheckStyle.eqb (type_checking_style self) check_strict);
    unfold call.
  - destruct (type_check_strict self x) as [[|]|e]; cbn.
    + exists 0. split; [lia | apply (Hacc TypeCheckStrict); auto].
    + exists k. split; [assumption|].
      destruct (coercion self x) as [t r]. cbn in *. subst t.
      apply (Hrej TypeCheckStrict); auto.
    + exists 0. split; [lia | apply (Hacc TypeCheckStrict); auto].
  - destruct (type_check self x) as [[|]|e]; cbn.
    + exists 0. split; [lia | apply (Hacc TypeCheck); auto].
    + exists k. split; [assumption|].
      destruct (coercion self x) as [t r]. cbn in *. subst t.
      apply (Hrej TypeCheck); auto.
    + exists 0. split; [lia | apply (Hacc TypeCheck); auto].
Qed.

(** X8. Every run of [fill] is in two parts.  In the first, one of the
    two type checks is called at most once and coercers are called in
    the order of the list from the first on, none twice, all of them on
    the value [fill] was given (a coercer never sees the result or the
    failure of another); no validator is called there.  In the second,
    validators are called in the order of the list from the first on,
    and no check or coercer is called any more: what a coercer returned
    is not checked again. *)
Theorem fill_call_discipline (self : AnnotatedFiller Value) (x : Value) :
  exists t1 t2 k m,
    trace (fill self x) = t1 ++ t2
    /\ (forall f v, In (Call f v) t1 -> before_validation f = true /\ v = x)
    /\ List.length (checks_called t1) <= 1
    /\ coercers_called t1 = seq 0 k
    /\ k <= List.length (coercers self)
    /\ no_check_no_coercion t2
    /\ validators_called t2 = seq 0 m
    /\ m <= List.length (validators self).
Proof.
  destruct (TypeCheckStyle_eqb_spec (type_checking_style self) default)
    as [Hd|Hd].
  { exists [], [], 0, 0. unfold fill, fill_body. rewrite Hd.
    refine (conj eq_refl (conj _ (conj _ (conj eq_refl (conj _
              (conj _ (conj eq_refl _)))))));
      try (cbn; lia); intros f v []. }
  rewrite (fill_configured self x Hd), generator_trace.
  destruct (type_checking_discipline self x) as (k & Hk & Hin & Hchk & Hco).
  destruct (type_checking self x) as [t [v|e]]; cbn [trace fst] in *.
  - destruct (validate_loop_called (validators self) 0 v) as (m & Hm & Hv).
    exists t, (Yield attempt_validation
                 :: trace (validate_loop 0 (validators self) v)), k, m.
    rewrite gen_bind_trace, validation_eq. cbn [trace fst].
    refine (conj eq_refl (conj Hin (conj Hchk (conj Hco (conj Hk
              (conj _ (conj Hv Hm))))))).
    intros f u [H|H]; [discriminate|].
    eapply validate_loop_calls; eauto.
  - exists t, [], k, 0. rewrite gen_bind_raise, app_nil_r. cbn [fst].
    refine (conj eq_refl (conj Hin (conj Hchk (conj Hco (conj Hk
              (conj _ (conj eq_refl _))))))); [intros f u [] | lia].
Qed.

(** X9. With coercers present, the coercion of lines 95-102 ends as the
    first coercer that does not raise a [TypeError] does -- with the
    value it returns or the other exception it raises -- and as the last
    coercer does when all raise a [TypeError]; the coercers called are
    those up to that one. *)
Theorem coercion_first_decisive (self : AnnotatedFiller Value) (x : Value) :
  coercers self <> [] ->
  coercion self x
  = (coercer_calls 0
       (Nat.min (List.length (coercers self))
                (S (leading_passed_over (coercers self) x))) x,
     scan_outcome (coercers self) x).
Proof.
  intros Hne. unfold coercion.
  destruct (coercers self) as [|c cs] eqn:Hcs; [contradiction|].
  cbn [is_empty]. exact (coerce_loop_scan x (c :: cs) 0 Hne).
Qed.

(** X10. When the type check that the style selects raises, [fill] ends
    right after [attempt_no_coerce]: no coercer is tried, validation is
    not reached, and [fill] raises that exception, or, when it is a
    [StopIteration], the [RuntimeError] the generator makes of it. *)
Theorem fill_type_check_raises (self : AnnotatedFiller Value) (x : Value)
    (e : PyExc Value) :
  (type_checking_style self = check /\ type_check self x = Raise e) \/
  (type_checking_style self = check_strict /\
   type_check_strict self x = Raise e) ->
  fill self x
  = ([Yield attempt_no_coerce; Call (checker self) x], Raise (escaping e))
  /\ (isinstance_StopIteration e = false -> escaping e = e).
Proof.
  intros H. split; [| unfold escaping; now intros ->].
  revert H. unfold fill, fill_body, type_checking, checker, call.
  intros [[Hs Hc] | [Hs Hc]]; rewrite Hs; cbn; rewrite Hc; reflexivity.
Qed.

(** X11. [fill] returns a value only at the end of validation: the first
    stage gave a value [v], every validator was called, in order, the
    value returned is the validators composed on [v], and the last
    intent yielded is [attempt_validation]. *)
Theorem fill_returns_after_validators (self : AnnotatedFiller Value)
    (x w : Value) :
  outcome (fill self x) = Return w ->
  exists t v,
    type_checking self x = (t, Return v)
    /\ compose (validators self) v = Return w
    /\ validators_called (trace (fill self x))
       = seq 0 (List.length (validators self))
    /\ intents (trace (fill self x))
       = intents t ++ [attempt_validation].
Proof.
  intros Hret.
  destruct (TypeCheckStyle_eqb_spec (type_checking_style self) default)
    as [Hd|Hd].
  { unfold fill, fill_body in Hret. rewrite Hd in Hret. discriminate. }
  destruct (type_checking self x) as [t [v|e]] eqn:Ht.
  - destruct (fill_reaching_validation self x t v Hd Ht) as [Hfill Hnone].
    rewrite Hfill in Hret |- *. cbn [outcome snd] in Hret.
    assert (Hret' : compose (validators self) v = Return w)
      by (destruct (compose (validators self) v);
          [exact Hret | discriminate]).
    clear Hret. rename Hret' into Hret.
    exists t, v. split; [reflexivity | split; [exact Hret | split]].
    + unfold trace at 1; cbn [fst].
      rewrite validators_called_app, Hnone. cbn.
      exact (proj1 (validate_loop_app (validators self) 0 [] v w Hret)).
    + unfold trace at 1; cbn [fst]. rewrite intents_app. cbn.
      now rewrite validate_loop_intents.
  - rewrite (fill_configured self x Hd), Ht, gen_bind_raise in Hret.
    discriminate.
Qed.

End FillExtras.

(** ** More runs on the small universe *)

Lemma bind_follows_token_order_witness :
  let self :=
    int_filler [PyStyle default; PyCoercionToken "len"; PyOpaque "note";
                PyValidationToken "succ"; PyStyle check;
                PyCoercionToken "refuse"; PyValidationToken "non_negative"] in
  type_checking_style (fst (bind self PyNone)) = check
  /\ coercers (fst (bind self PyNone)) = [str_len; refuse "refused"]
  /\ validators (fst (bind self PyNone)) = [succ; non_negative]
  /\ snd (bind self PyNone) = Return tt.
Proof.
  exact (bind_follows_token_order
           (int_filler [PyStyle default; PyCoercionToken "len";
                        PyOpaque "note"; PyValidationToken "succ";
                        PyStyle check; PyCoercionToken "refuse";
                        PyValidationToken "non_negative"])
           PyNone eq_refl).
Defined.

Lemma bind_stops_at_first_unresolvable_witness :
  bind (int_filler [PyStyle hollow; PyCoercionToken "len";
                    PyValidationToken "nope"; PyStyle check]) PyNone
  = (configure (int_filler [PyStyle hollow; PyCoercionToken "len";
                            PyValidationToken "nope"; PyStyle check])
               [PyStyle hollow; PyCoercionToken "len"],
     Raise (mkExc TypeError (Object (PyValidationToken "nope")))).
Proof.
  exact (bind_stops_at_first_unresolvable
           (int_filler [PyStyle hollow; PyCoercionToken "len";
                        PyValidationToken "nope"; PyStyle check])
           PyNone [PyStyle hollow; PyCoercionToken "len"]
           (PyValidationToken "nope") [PyStyle check]
           eq_refl eq_refl eq_refl).
Defined.

Lemma bind_raises_only_witness :
  let e : PyExc PyObj := mkExc NotImplementedError NoArgs in
  e = mkExc NotImplementedError NoArgs
  \/ e = mkExc ValueError
           (Message "cannot have hollow type checking with coercers")
  \/ exists token,
       In token [PyCoercionToken "len"] /\ unresolvable token = true /\
       e = mkExc TypeError (Object token).
Proof.
  exact (bind_raises_only
           (int_filler [PyCoercionToken "len"]) PyNone
           (configure (int_filler [PyCoercionToken "len"])
                      [PyCoercionToken "len"])
           (mkExc NotImplementedError NoArgs) eq_refl).
Defined.

Lemma bind_then_fill_witness :
  let self' :=
    fst (bind (int_filler [PyStyle check_strict; PyCoercionToken "len"])
              PyNone) in
  type_checking_style self' <> default
  /\ (type_checking_style self' = hollow -> coercers self' = [])
  /\ forall x,
       fill self' x
       = generator (v <- type_checking self' x ;; validation self' v)
       /\ exists rest,
            intents (trace (fill self' x)) = attempt_no_coerce :: rest.
Proof.
  exact (bind_then_fill
           (int_filler [PyStyle check_strict; PyCoercionToken "len"]) PyNone
           (fst (bind (int_filler [PyStyle check_strict;
                                   PyCoercionToken "len"]) PyNone))
           eq_refl).
Defined.

Lemma bind_new_filler_witness :
  bind (int_filler [PyStyle hollow; PyValidationToken "succ"]) PyNone
  = ({| type_checking_style := hollow;
        origin := PyOpaque "int";
        args := [PyStyle hollow; PyValidationToken "succ"];
        coercers := [];
        validators := [succ];
        type_check_strict := type_is_int;
        type_check := isinstance_int |},
     Return tt).
Proof.
  exact (proj2 (bind_new_filler type_is_int isinstance_int (PyOpaque "int")
                  PyNone [PyStyle hollow; PyValidationToken "succ"])
               eq_refl).
Defined.

Lemma coercion_first_decisive_witness :
  coercion (configured check [refuse "no"; crash "boom"; str_len] [])
           (PyStr "abc")
  = ([Call (Coercer 0) (PyStr "abc"); Call (Coercer 1) (PyStr "abc")],
     Raise (mkExc ValueError (Message "boom"))).
Proof.
  refine (coercion_first_decisive
            (configured check [refuse "no"; crash "boom"; str_len] [])
            (PyStr "abc") _).
  discriminate.
Defined.

Lemma fill_type_check_raises_witness :
  fill {| type_checking_style := check_strict;
          origin := PyOpaque "Sequence";
          args := [];
          coercers := [str_len];
          validators := [succ];
          type_check_strict :=
            fun _ => Raise (mkExc ValueError (Message "abstract class"));
          type_check := isinstance_int |}
       (PyInt 1)
  = ([Yield attempt_no_coerce; Call TypeCheckStrict (PyInt 1)],
     Raise (mkExc ValueError (Message "abstract class"))).
Proof.
  refine (proj1 (fill_type_check_raises _ (PyInt 1)
                   (mkExc ValueError (Message "abstract class")) _)).
  right. split; reflexivity.
Defined.

Lemma fill_returns_after_validators_witness :
  exists t v,
    type_checking (configured check [str_len] [succ]) (PyStr "abc")
    = (t, Return v)
    /\ compose [succ] v = Return (PyInt 4)
    /\ validators_called
         (trace (fill (configured check [str_len] [succ]) (PyStr "abc")))
       = [0]
    /\ intents (trace (fill (configured check [str_len] [succ])
                            (PyStr "abc")))
       = intents t ++ [attempt_validation].
Proof.
  exact (fill_returns_after_validators
           (configured check [str_len] [succ]) (PyStr "abc") (PyInt 4)
           eq_refl).
Defined.

Section StageExtras.

Context {Value : Type} {rt : Runtime Value}.

Lemma announced_coercer_calls k : forall i (x : Value) t,
  announced (Some attempt_coerce) (coercer_calls i k x ++ t)
  = announced (Some attempt_coerce) t.
Proof.
  induction k as [|k IH]; intros i x t; [reflexivity|].
  rewrite coercer_calls_cons. cbn. apply IH.
Qed.

Lemma announced_validate_loop (vs : list (Callable Value)) : forall j v,
  announced (Some attempt_validation) (trace (validate_loop j vs v)) = true.
Proof.
  induction vs as [|f vs IH]; intros j v; [reflexivity|].
  cbn [validate_loop]. unfold call. destruct (f v) as [w|e]; [|reflexivity].
  rewrite gen_bind_trace. cbn. apply IH.
Qed.

Lemma announced_validation (self : AnnotatedFiller Value) (v : Value) last :
  announced last (trace (validation self v)) = true.
Proof.
  rewrite validation_eq. cbn. apply announced_validate_loop.
Qed.

Lemma type_checking_raised (self : AnnotatedFiller Value) (x : Value)
    (e : PyExc Value) :
  (type_checking_style self = check /\ type_check self x = Raise e) \/
  (type_checking_style self = check_strict /\
   type_check_strict self x = Raise e) ->
  type_checking self x
  = ([Yield attempt_no_coerce; Call (checker self) x], Raise e).
Proof.
  unfold type_checking, checker, call.
  intros [[Hs Hc] | [Hs Hc]]; rewrite Hs; cbn; rewrite Hc; reflexivity.
Qed.

Lemma allowed_checker (self : AnnotatedFiller Value) :
  allowed_after (Some attempt_no_coerce) (checker self) = true.
Proof.
  unfold checker.
  now destruct (TypeCheckStyle.eqb (type_checking_style self) check_strict).
Qed.

(** The three ways the first stage goes under [check] and
    [check_strict], each followed by validation when it gives a value. *)
Lemma announced_checked (self : AnnotatedFiller Value) (x : Value) :
  check_accepts self x \/ check_rejects self x
  \/ (exists e,
        (type_checking_style self = check /\ type_check self x = Raise e) \/
        (type_checking_style self = check_strict /\
         type_check_strict self x = Raise e)) ->
  announced None (trace (v <- type_checking self x ;; validation self v))
  = true.
Proof.
  intros [H | [H | [e H]]].
  - rewrite (type_checking_accepted self x H), gen_bind_trace.
    cbn [trace fst app announced]. rewrite allowed_checker.
    apply announced_validation.
  - rewrite (type_checking_rejected self x H).
    destruct (coercion_trace self x) as (k & _ & Hco).
    destruct (coercion self x) as [t [v|e]]; cbn [trace outcome fst snd] in *;
      subst t.
    + rewrite gen_bind_trace. cbn [trace fst app announced].
      rewrite allowed_checker, announced_coercer_calls.
      apply announced_validation.
    + rewrite gen_bind_raise. cbn [trace fst app announced].
      rewrite allowed_checker.
      rewrite <- (app_nil_r (coercer_calls 0 k x)).
      now rewrite announced_coercer_calls.
  - rewrite (type_checking_raised self x e H), gen_bind_raise.
    cbn [trace fst announced]. now rewrite allowed_checker.
Qed.

(** X12. An intent is yielded before the stage it stands for does
    anything: in every run of [fill] nothing is called before the first
    intent, a type check is called only while [attempt_no_coerce] is the
    last intent yielded, a coercer only while it is [attempt_coerce], and
    a validator only while it is [attempt_validation].  A driver that
    drops the generator on receiving [attempt_coerce] has had no coercer
    called. *)
Theorem fill_calls_announced (self : AnnotatedFiller Value) (x : Value) :
  announced None (trace (fill self x)) = true.
Proof.
  destruct (type_checking_style self) eqn:Hs.
  - unfold fill, fill_body. rewrite Hs. reflexivity.
  - rewrite fill_configured, generator_trace by (rewrite Hs; discriminate).
    assert (Ht : type_checking self x = ([Yield attempt_hollow], Return x))
      by (unfold type_checking; rewrite Hs; reflexivity).
    rewrite Ht, gen_bind_trace. cbn [trace fst app announced].
    apply announced_validation.
  - rewrite fill_configured, generator_trace by (rewrite Hs; discriminate).
    apply announced_checked.
    destruct (type_check self x) as [[|]|e] eqn:Hc.
    + left. left. auto.
    + right. left. left. auto.
    + right. right. exists e. left. auto.
  - rewrite fill_configured, generator_trace by (rewrite Hs; discriminate).
    apply announced_checked.
    destruct (type_check_strict self x) as [[|]|e] eqn:Hc.
    + left. right. auto.
    + right. left. right. auto.
    + right. right. exists e. right. auto.
Qed.

End StageExtras.

(** A trace in which a coercer runs before [attempt_coerce] is yielded is
    not one [announced] accepts. *)
Example announced_rejects_early_coercer :
  announced None
    [Yield attempt_no_coerce; Call TypeCheck (PyInt 1);
     Call (Coercer 0) (PyInt 1); Yield attempt_coerce]
  = false.
Proof. reflexivity. Qed.

(** ** Runs that leave the generator with a [StopIteration], and tokens of
    other arities *)

Example fill_stop_iteration_from_check :
  fill {| type_checking_style := check;
          origin := PyOpaque "int";
          args := [];
          coercers := [];
          validators := [];
          type_check_strict := type_is_int;
          type_check := fun _ => Raise (mkExc StopIteration NoArgs) |}
       (PyInt 1)
  = ([Yield attempt_no_coerce; Call TypeCheck (PyInt 1)],
     Raise (mkExc RuntimeError (Message "generator raised StopIteration"))).
Proof. reflexivity. Qed.

(** The only coercer raises an exception that is a [TypeError] and a
    [StopIteration]: it is re-raised as the last coercer's, leaves the
    generator, and [fill] raises a [RuntimeError], not that exception. *)
Lemma fill_last_coercer_stop_iteration :
  check_rejects (configured check [refuse "no"; weird] []) (PyStr "abc")
  /\ Forall (raises_TypeError_on (PyStr "abc")) [refuse "no"; weird]
  /\ weird (PyStr "abc")
     = Raise (mkExc (OtherException "Weird" true true) NoArgs)
  /\ fill (configured check [refuse "no"; weird] []) (PyStr "abc")
     = ([Yield attempt_no_coerce; Call TypeCheck (PyStr "abc");
         Yield attempt_coerce;
         Call (Coercer 0) (PyStr "abc"); Call (Coercer 1) (PyStr "abc")],
        Raise (mkExc RuntimeError
                 (Message "generator raised StopIteration")))
  /\ outcome (fill (configured check [refuse "no"; weird] []) (PyStr "abc"))
     <> Raise (mkExc (OtherException "Weird" true true) NoArgs).
Proof.
  split; [left; split; reflexivity |].
  split.
  { constructor; [| constructor; [| constructor]].
    - exists (mkExc TypeError (Message "no")). split; reflexivity.
    - exists (mkExc (OtherException "Weird" true true) NoArgs).
      split; reflexivity. }
  split; [reflexivity | split; [reflexivity |]].
  cbn. intros H. discriminate H.
Qed.

(** A validator raises [StopIteration]: the validators after it are not
    called, and [fill] raises a [RuntimeError], not that exception. *)
Lemma fill_validator_stop_iteration :
  exhausted (PyInt 2) = Raise (mkExc StopIteration NoArgs)
  /\ fill (configured check [] [succ; exhausted; succ]) (PyInt 1)
     = ([Yield attempt_no_coerce; Call TypeCheck (PyInt 1);
         Yield attempt_validation;
         Call (Validator 0) (PyInt 1); Call (Validator 1) (PyInt 2)],
        Raise (mkExc RuntimeError
                 (Message "generator raised StopIteration")))
  /\ outcome (fill (configured check [] [succ; exhausted; succ]) (PyInt 1))
     <> Raise (mkExc StopIteration NoArgs).
Proof.
  split; [reflexivity | split; [reflexivity |]].
  cbn. intros H. discriminate H.
Qed.

(** A coercer raises [StopIteration], which is no [TypeError]: the scan
    ends there, and [fill] raises a [RuntimeError], not that
    exception. *)
Lemma fill_coercer_stop_iteration :
  exhausted (PyStr "abc") = Raise (mkExc StopIteration NoArgs)
  /\ isinstance_TypeError (@mkExc PyObj StopIteration NoArgs) = false
  /\ fill (configured check [refuse "no"; exhausted; str_len] [])
          (PyStr "abc")
     = ([Yield attempt_no_coerce; Call TypeCheck (PyStr "abc");
         Yield attempt_coerce;
         Call (Coercer 0) (PyStr "abc"); Call (Coercer 1) (PyStr "abc")],
        Raise (mkExc RuntimeError
                 (Message "generator raised StopIteration")))
  /\ outcome (fill (configured check [refuse "no"; exhausted; str_len] [])
                   (PyStr "abc"))
     <> Raise (mkExc StopIteration NoArgs).
Proof.
  split; [reflexivity | split; [reflexivity | split; [reflexivity |]]].
  cbn. intros H. discriminate H.
Qed.

(** [bind] raises although the style it is left with is [check] and
    there is no coercer: a coercion token is not callable. *)
Lemma bind_raises_with_style_set :
  snd (bind (int_filler [PyStyle check; PyCoercionToken "int"]) PyNone)
  = Raise (mkExc TypeError (Object (PyCoercionToken "int")))
  /\ type_checking_style
       (fst (bind (int_filler [PyStyle check; PyCoercionToken "int"])
                  PyNone))
     = check
  /\ coercers (fst (bind (int_filler [PyStyle check; PyCoercionToken "int"])
                         PyNone))
     = []
  /\ ~ misconfigured
         (fst (bind (int_filler [PyStyle check; PyCoercionToken "int"])
                    PyNone)).
Proof.
  split; [reflexivity | split; [reflexivity | split; [reflexivity |]]].
  unfold misconfigured. cbn. intros [H | [H _]]; discriminate H.
Qed.

Lemma bind_postconditions_witness :
  bind (int_filler [PyStyle hollow; PyCoercionToken "len"]) PyNone
  = (fst (apply_each (int_filler [PyStyle hollow; PyCoercionToken "len"])
                     [PyStyle hollow; PyCoercionToken "len"]),
     Raise (mkExc ValueError
              (Message "cannot have hollow type checking with coercers")))
  /\ bind (int_filler [PyStyle check; PyCoercionToken "len";
                       PyValidationToken "succ"]) PyNone
     = (fst (apply_each
               (int_filler [PyStyle check; PyCoercionToken "len";
                            PyValidationToken "succ"])
               [PyStyle check; PyCoercionToken "len";
                PyValidationToken "succ"]),
        Return tt)
  /\ bind (int_filler [PyStyle check; PyCoercionToken "int";
                       PyStyle hollow]) PyNone
     = (fst (apply_each (int_filler [PyStyle check; PyCoercionToken "int";
                                     PyStyle hollow])
                        [PyStyle check]),
        Raise (mkExc TypeError (Object (PyCoercionToken "int")))).
Proof.
  split; [| split].
  - refine (proj1 (proj2 (proj2 (proj2
              (proj2 (proj2 (bind_postconditions
                               (int_filler [PyStyle hollow;
                                            PyCoercionToken "len"])
                               PyNone))
                     _ eq_refl)))) eq_refl _).
    cbn. discriminate.
  - refine (proj2 (proj2 (proj2 (proj2
              (proj2 (proj2 (bind_postconditions
                               (int_filler [PyStyle check;
                                            PyCoercionToken "len";
                                            PyValidationToken "succ"])
                               PyNone))
                     _ eq_refl)))) _).
    unfold misconfigured. cbn. intros [H | [H _]]; discriminate H.
  - exact (proj1 (proj1 (proj2 (bind_postconditions
                                  (int_filler [PyStyle check;
                                               PyCoercionToken "int";
                                               PyStyle hollow])
                                  PyNone))
                        _ _ eq_refl)).
Defined.

(** A coercion token that can be called, but not with one argument, is
    taken by [apply] as any other. *)
Lemma apply_accepts_non_unary :
  isinstance_CoercionToken (PyCoercionToken "pair") = true
  /\ accepts_one_argument (PyCoercionToken "pair") = false
  /\ snd (apply (int_filler []) (PyCoercionToken "pair")) = Return tt
  /\ coercers (fst (apply (int_filler []) (PyCoercionToken "pair")))
     = [pair]
  /\ snd (bind (int_filler [PyStyle check; PyCoercionToken "pair"]) PyNone)
     = Return tt.
Proof. repeat split. Qed.
